(** * LootWishlist: scripts/generate_track_data.py

    A shallow embedding of the generator script and the properties of its
    staleness check, CSV parsing and table join.

    Conventions of the embedding
    - Python [str] is [string]; the texts handled are those whose code points
      are below 256, and [py_isspace] is [str.isspace] on that range.
    - Python [int] is [Z].
    - A Python [dict] is an insertion-ordered association list with unique
      keys ([PyDict.set] overwrites in place or appends), since the join
      iterates [group_to_track.items()] in insertion order.
    - Exceptions are explicit: an operation returns an [outcome].  Effects of
      a run (prints, fetches, the write) are recorded in a trace. *)

From Stdlib Require Import ZArith NArith List String Ascii Bool Lia.
From stdpp Require Import base list.
Import ListNotations.

Local Open Scope string_scope.
Local Open Scope Z_scope.

(** ** Python strings *)

#[global] Instance string_eq_dec : EqDecision string := String.string_dec.

Module PyStr.

(** [str.isspace] for one character (code points below 256):
    TAB..CR, FS..US, SPACE, NEL and NBSP. *)
Definition py_isspace (c : ascii) : bool :=
  let n := N_of_ascii c in
  (((9 <=? n) && (n <=? 13)) || ((28 <=? n) && (n <=? 32))
   || (n =? 133) || (n =? 160))%N.

Definition newline : ascii := "010"%char.
Definition carriage_return : ascii := "013"%char.
Definition comma : ascii := ","%char.

Definition is_empty (s : string) : bool :=
  match s with EmptyString => true | String _ _ => false end.

(** Truthiness of a [str]: [bool(s)]. *)
Definition str_truthy (s : string) : bool := negb (is_empty s).

Fixpoint lstrip (s : string) : string :=
  match s with
  | EmptyString => EmptyString
  | String c s' => if py_isspace c then lstrip s' else s
  end.

Fixpoint rstrip (s : string) : string :=
  match s with
  | EmptyString => EmptyString
  | String c s' =>
      let r := rstrip s' in
      if py_isspace c && is_empty r then EmptyString else String c r
  end.

(** [s.strip()] *)
Definition strip (s : string) : string := rstrip (lstrip s).

(** [s.split(sep)] for a one-character separator: always at least one field. *)
Fixpoint split (sep : ascii) (s : string) : list string :=
  match s with
  | EmptyString => [EmptyString]
  | String c s' =>
      if Ascii.eqb c sep then EmptyString :: split sep s'
      else match split sep s' with
           | f :: fs => String c f :: fs
           | [] => [String c EmptyString]
           end
  end.

(** [s.startswith(p)], returning the remainder after the prefix. *)
Fixpoint strip_prefix (p s : string) : option string :=
  match p, s with
  | EmptyString, _ => Some s
  | String a p', String b s' => if Ascii.eqb a b then strip_prefix p' s' else None
  | String _ _, EmptyString => None
  end.

(** Reading in text mode: [CR LF] and a lone [CR] both come out as [LF].
    The flag tells that the character before was a [CR]. *)
Fixpoint newlines_from (after_cr : bool) (s : string) : string :=
  match s with
  | EmptyString => EmptyString
  | String c s' =>
      if Ascii.eqb c carriage_return
      then String newline (newlines_from true s')
      else if Ascii.eqb c newline
      then (if after_cr then newlines_from false s'
            else String newline (newlines_from false s'))
      else String c (newlines_from false s')
  end.

Definition universal_newlines (s : string) : string := newlines_from false s.

Fixpoint contains_char (c : ascii) (s : string) : bool :=
  match s with
  | EmptyString => false
  | String a s' => Ascii.eqb a c || contains_char c s'
  end.

End PyStr.
Export PyStr.

(** ** Python dictionaries, insertion ordered *)

Module PyDict.
Section Dict.
Context {K V : Type} `{EqDecision K}.

Definition dict := list (K * V).

Definition empty : dict := [].

(** [d.get(k)] *)
Fixpoint get (k : K) (d : dict) : option V :=
  match d with
  | [] => None
  | (k', v) :: d' => if decide (k' = k) then Some v else get k d'
  end.

(** [d[k] = v]: an existing key keeps its position, a new key goes last. *)
Fixpoint set (k : K) (v : V) (d : dict) : dict :=
  match d with
  | [] => [(k, v)]
  | (k', v') :: d' =>
      if decide (k' = k) then (k, v) :: d' else (k', v') :: set k v d'
  end.

(** [k in d] *)
Definition mem (k : K) (d : dict) : bool :=
  match get k d with Some _ => true | None => false end.

Definition keys (d : dict) : list K := map fst d.

(** [len(d)] *)
Definition len (d : dict) : Z := Z.of_nat (length d).

(** [bool(d)] *)
Definition truthy (d : dict) : bool :=
  match d with [] => false | _ :: _ => true end.

(** The representation invariant: no key occurs twice. *)
Definition wf (d : dict) : Prop := NoDup (keys d).
End Dict.
Arguments dict : clear implicits.
End PyDict.

(** ** get_existing_build: the marker of a previous artifact *)

Definition marker_prefix : string := "-- Build: ".

(** One line against [^-- Build: (.+)$]: the group is the rest of the line,
    which must hold at least one character. *)
Definition match_marker_line (line : string) : option string :=
  match strip_prefix marker_prefix line with
  | Some rest => if is_empty rest then None else Some rest
  | None => None
  end.

Fixpoint first_marker (lines : list string) : option string :=
  match lines with
  | [] => None
  | l :: ls =>
      match match_marker_line l with
      | Some g => Some g
      | None => first_marker ls
      end
  end.

(** [re.search(r"^-- Build: (.+)$", content, re.MULTILINE)], returning group 1.
    With MULTILINE, [^] holds at the start of each line and [$] at its end, and
    [.] matches every character but the newline, so the leftmost match is the
    first line, among those separated by newlines, that the pattern matches
    whole. *)
Definition re_search_build (content : string) : option string :=
  first_marker (split newline content).

(** ** Python values, exceptions and the run monad *)

(** The values a decoded JSON document is made of.  [PInt] stands for every
    number: the script only tests a number for truth, and a number has no
    [len], no [get] and no index, whether it is an integer or not. *)
#[warnings="-register-all"] Inductive pyval :=
| PNone
| PBool (b : bool)
| PInt (n : Z)
| PStr (s : string)
| PList (l : list pyval)
| PDict (d : list (string * pyval)).

Inductive exn :=
| ConnectionError   (* requests: a subclass of RequestException *)
| Timeout           (* requests: a subclass of RequestException *)
| HTTPError         (* requests: a subclass of RequestException *)
| ValueError
| UnicodeDecodeError  (* a subclass of ValueError *)
| KeyError
| IndexError
| AttributeError
| TypeError
| OSError
| SystemExit (code : Z).

Definition is_RequestException (e : exn) : bool :=
  match e with ConnectionError | Timeout | HTTPError => true | _ => false end.

Inductive outcome (A : Type) :=
| Ret (a : A)
| Raise (e : exn).
Arguments Ret {A} a.
Arguments Raise {A} e.

(** [bool(v)] *)
Definition py_truthy (v : pyval) : bool :=
  match v with
  | PNone => false
  | PBool b => b
  | PInt n => negb (n =? 0)
  | PStr s => str_truthy s
  | PList l => match l with [] => false | _ => true end
  | PDict d => match d with [] => false | _ => true end
  end.

Fixpoint assoc (k : string) (d : list (string * pyval)) : option pyval :=
  match d with
  | [] => None
  | (k', v) :: d' => if String.eqb k' k then Some v else assoc k d'
  end.

(** [v.get(key, default)]: only a dict has the method. *)
Definition py_get (v : pyval) (key : string) (default : pyval) : outcome pyval :=
  match v with
  | PDict d => Ret (match assoc key d with Some x => x | None => default end)
  | _ => Raise AttributeError
  end.

(** [len(v)] *)
Definition py_len (v : pyval) : outcome Z :=
  match v with
  | PStr s => Ret (Z.of_nat (String.length s))
  | PList l => Ret (Z.of_nat (length l))
  | PDict d => Ret (Z.of_nat (length d))
  | _ => Raise TypeError
  end.

(** [v[0]]; the keys of a decoded JSON object are strings, never [0]. *)
Definition py_first (v : pyval) : outcome pyval :=
  match v with
  | PList (x :: _) => Ret x
  | PList [] => Raise IndexError
  | PStr (String c _) => Ret (PStr (String c EmptyString))
  | PStr EmptyString => Raise IndexError
  | PDict _ => Raise KeyError
  | _ => Raise TypeError
  end.

(** [existing != current] for a string against any value. *)
Definition str_ne (s : string) (v : pyval) : bool :=
  match v with
  | PStr s' => negb (String.eqb s s')
  | _ => true
  end.

(** [v or "unknown"] and the like. *)
Definition py_or (v default : pyval) : pyval :=
  if py_truthy v then v else default.

(** The pieces of an f-string, before formatting. *)
Inductive frag :=
| Lit (s : string)
| Fmt (v : pyval)
| FmtExn (e : exn)
| FmtPath (file : string).

Definition fstring := list frag.

(** What [requests.get] hands back. *)
Record response := {
  status_code : Z;
  text : string;
  json_body : option pyval   (* [None]: the body is not JSON *)
}.

(** The ways [requests.get] itself fails with these arguments. *)
Inductive request_failure :=
| ConnectionFailed
| TimedOut.

Definition exn_of_failure (f : request_failure) : exn :=
  match f with
  | ConnectionFailed => ConnectionError
  | TimedOut => Timeout
  end.

Inductive reply :=
| NoReply (f : request_failure)
| Reply (r : response).

(** The output file before the run. *)
Inductive artifact :=
| Absent
| Unreadable          (* exists, but reading it raises OSError *)
| Undecodable         (* exists, but its bytes do not decode as text *)
| Present (content : string).

(** Command-line words as argparse classifies them for this parser.  The
    separator [--] is left out; the words after it are [TokOther]. *)
Inductive cli_token :=
| TokForce                 (* --force, -f and the abbreviations of --force *)
| TokHelp                  (* --help, -h (added by argparse) *)
| TokBad (word : string)   (* a flag given a value or run together with an
                              unknown letter, as --force=1 or -fx: an error
                              as soon as it is met *)
| TokOther (word : string) (* anything the parser does not declare: reported
                              once all words are read *).

(** Everything outside the process that a run depends on. *)
Record world := {
  argv : list cli_token;
  output_file : artifact;
  builds_api : nat -> reply;      (* the reply to the n-th builds request *)
  db2_api : string -> reply;      (* the reply for a table name *)
  template_present : bool;        (* TrackData.template exists; the template
                                     is not part of the script, and one that
                                     exists is taken to be read and rendered
                                     without error *)
  output_writable : bool          (* opening the output for writing succeeds *)
}.

Inductive event :=
| Print (line : fstring)
| PrintHelp                (* argparse: the help text, on stdout *)
| PrintUsage               (* argparse: usage and error message, on stderr *)
| GetBuilds
| GetTable (name : string)
| ReadArtifact
| WriteArtifact (track_ids : list (Z * string)) (build_version : pyval).

Definition trace := list event.

Definition M (A : Type) : Type := trace -> outcome A * trace.

Definition ret {A} (a : A) : M A := fun t => (Ret a, t).
Definition raise {A} (e : exn) : M A := fun t => (Raise e, t).
Definition bind {A B} (m : M A) (k : A -> M B) : M B :=
  fun t => match m t with
           | (Ret a, t') => k a t'
           | (Raise e, t') => (Raise e, t')
           end.
Definition lift {A} (o : outcome A) : M A := fun t => (o, t).
Definition emit (e : event) : M unit := fun t => (Ret tt, (t ++ [e])%list).
Definition print (line : fstring) : M unit := emit (Print line).

(** [try: body  except <handled>: handler] *)
Definition try_except {A} (body : M A) (handled : exn -> bool)
    (handler : exn -> M A) : M A :=
  fun t => match body t with
           | (Raise e, t') => if handled e then handler e t' else (Raise e, t')
           | r => r
           end.

Notation "'let!' x ':=' m 'in' k" := (bind m (fun x => k))
  (at level 10, x name, m at level 100, k at level 200, only parsing).
Notation "'do!' m 'in' k" := (bind m (fun _ => k))
  (at level 10, m at level 100, k at level 200, only parsing).

Definition is_GetBuilds (e : event) : bool :=
  match e with GetBuilds => true | _ => false end.
Definition is_ReadArtifact (e : event) : bool :=
  match e with ReadArtifact => true | _ => false end.

Fixpoint count_events (p : event -> bool) (t : trace) : nat :=
  match t with
  | [] => O
  | e :: t' => ((if p e then 1 else 0) + count_events p t')%nat
  end.

(** ** fetch_current_build *)

(** The client-error and server-error status codes. *)
Definition error_status (code : Z) : bool := (400 <=? code) && (code <? 600).

(** [response.raise_for_status()]: HTTPError for the 4xx and 5xx codes. *)
Definition raise_for_status (r : response) : M unit :=
  if error_status (status_code r) then raise HTTPError else ret tt.

(** [response.json()]: ValueError when the body does not decode. *)
Definition response_json (r : response) : M pyval :=
  match json_body r with
  | Some v => ret v
  | None => raise ValueError
  end.

Section Run.
Variable w : world.

(** [requests.get("https://wago.tools/api/builds", timeout=10)]: the reply
    depends on how many builds requests the run has made before. *)
Definition requests_get_builds : M response :=
  fun t =>
    match builds_api w (count_events is_GetBuilds t) with
    | NoReply f => (Raise (exn_of_failure f), (t ++ [GetBuilds])%list)
    | Reply r => (Ret r, (t ++ [GetBuilds])%list)
    end.

(** [requests.get(f"{WAGO_BASE}/{table_name}/csv", timeout=30)] *)
Definition requests_get_table (table_name : string) : M response :=
  do! emit (GetTable table_name) in
  match db2_api w table_name with
  | NoReply f => raise (exn_of_failure f)
  | Reply r => ret r
  end.

Definition fetch_current_build_handled (e : exn) : bool :=
  is_RequestException e ||
  match e with
  | ValueError | UnicodeDecodeError | KeyError | AttributeError => true
  | _ => false
  end.

(** Returns the version value, or [PNone] for Python's [None]. *)
Definition fetch_current_build : M pyval :=
  let! r :=
    try_except
      (let! response := requests_get_builds in
       do! raise_for_status response in
       let! builds := response_json response in
       let! wow_builds := lift (py_get builds "wow" (PList [])) in
       let! nonempty :=
         (if py_truthy wow_builds
          then let! n := lift (py_len wow_builds) in ret (0 <? n)
          else ret false) in
       if nonempty
       then let! entry := lift (py_first wow_builds) in
            let! version := lift (py_get entry "version" (PStr EmptyString)) in
            ret (Some version)
       else ret None)
      fetch_current_build_handled
      (fun _ => ret None) in
  match r with
  | Some version => ret version
  | None => ret PNone
  end.

(** ** get_existing_build *)

(** [output_path.exists()] *)
Definition output_exists : bool :=
  match output_file w with Absent => false | _ => true end.

(** [output_path.read_text()]: the text of the file with its line ends
    translated; OSError when the file cannot be opened or read,
    UnicodeDecodeError when its bytes do not decode. *)
Definition read_text : M string :=
  do! emit ReadArtifact in
  match output_file w with
  | Present content => ret (universal_newlines content)
  | Undecodable => raise UnicodeDecodeError
  | Unreadable => raise OSError
  | Absent => raise OSError
  end.

Definition is_OSError (e : exn) : bool :=
  match e with OSError => true | _ => false end.

Definition get_existing_build : M (option string) :=
  if negb output_exists then ret None
  else
    try_except
      (let! content := read_text in
       match re_search_build content with
       | Some group1 => ret (Some (strip group1))
       | None => ret None
       end)
      is_OSError
      (fun _ => ret None).

(** ** should_regenerate *)

(** [not existing_build] for a [str | None]. *)
Definition opt_str_truthy (o : option string) : bool :=
  match o with Some s => str_truthy s | None => false end.

Definition should_regenerate (force : bool) : M (bool * fstring) :=
  if force then ret (true, [Lit "forced regeneration"])
  else if negb output_exists then ret (true, [Lit "TrackData.lua does not exist"])
  else
    let! existing_build := get_existing_build in
    match existing_build with
    | None => ret (true, [Lit "could not determine existing build version"])
    | Some existing =>
        if negb (str_truthy existing)
        then ret (true, [Lit "could not determine existing build version"])
        else
          let! current_build := fetch_current_build in
          if negb (py_truthy current_build)
          then
            do! print [Lit "Warning: Could not fetch current build version, skipping regeneration"] in
            ret (false, [Lit "could not fetch current build"])
          else if str_ne existing current_build
          then ret (true, [Lit "build changed: "; Fmt (PStr existing);
                           Lit " -> "; Fmt current_build])
          else ret (false, [Lit "already up to date (build ";
                            Fmt (PStr existing); Lit ")"])
    end.

(** ** fetch_db2_table *)

Definition Row := PyDict.dict string string.

Fixpoint enumerate_from {A} (i : nat) (l : list A) : list (nat * A) :=
  match l with
  | [] => []
  | x :: l' => (i, x) :: enumerate_from (S i) l'
  end.

(** [enumerate(l)] *)
Definition enumerate {A} (l : list A) : list (nat * A) := enumerate_from 0 l.

(** The body of [for i, header in enumerate(headers)]. *)
Definition row_step (values : list string) (row : Row) (ih : nat * string) : Row :=
  let '(i, header) := ih in
  if (i <? length values)%nat
  then PyDict.set (strip header) (strip (nth i values EmptyString)) row
  else row.

Definition build_row (headers values : list string) : Row :=
  fold_left (row_step values) (enumerate headers) PyDict.empty.

(** The body of [for line in lines[1:]]. *)
Definition rows_step (headers : list string) (rows : list Row) (line : string)
  : list Row :=
  if negb (str_truthy (strip line)) then rows
  else (rows ++ [build_row headers (split comma line)])%list.

(** From [lines = response.text.strip().split("\n")] to [return rows]. *)
Definition parse_table (body : string) : list Row :=
  let lines := split newline (strip body) in
  if (length lines <? 2)%nat then []
  else match lines with
       | [] => []
       | first :: rest =>
           let headers := split comma first in
           fold_left (rows_step headers) rest []
       end.

Definition fetch_db2_table (table_name : string) : M (list Row) :=
  do! print [Lit "Fetching "; Fmt (PStr table_name); Lit "..."] in
  let! r :=
    try_except
      (let! response := requests_get_table table_name in
       do! raise_for_status response in
       ret (Some response))
      is_RequestException
      (fun e =>
         do! print [Lit "Error fetching "; Fmt (PStr table_name); Lit ": ";
                    FmtExn e] in
         ret None) in
  match r with
  | None => ret []
  | Some response => ret (parse_table (text response))
  end.

(** ** build_track_mapping *)

Definition TRACK_NAMES : PyDict.dict Z string :=
  [(1, "explorer"); (2, "adventurer"); (3, "veteran");
   (4, "champion"); (5, "hero"); (6, "myth")].

Definition digit_val (c : ascii) : option Z :=
  let n := N_of_ascii c in
  if ((48 <=? n) && (n <=? 57))%N then Some (Z.of_N n - 48) else None.

(** Decimal digits, single underscores allowed between two digits. *)
Fixpoint parse_digits (acc : Z) (after_digit : bool) (s : string) : option Z :=
  match s with
  | EmptyString => if after_digit then Some acc else None
  | String c s' =>
      match digit_val c with
      | Some d => parse_digits (10 * acc + d) true s'
      | None =>
          if Ascii.eqb c "_"%char && after_digit
          then parse_digits acc false s'
          else None
      end
  end.

(** The whitespace [int] skips at both ends: TAB..CR and SPACE, and NEL and
    NBSP, which it first turns into spaces.  FS..US are not among them. *)
Definition int_isspace (c : ascii) : bool :=
  let n := N_of_ascii c in
  (((9 <=? n) && (n <=? 13)) || (n =? 32) || (n =? 133) || (n =? 160))%N.

Fixpoint int_lstrip (s : string) : string :=
  match s with
  | EmptyString => EmptyString
  | String c s' => if int_isspace c then int_lstrip s' else s
  end.

Fixpoint int_rstrip (s : string) : string :=
  match s with
  | EmptyString => EmptyString
  | String c s' =>
      let r := int_rstrip s' in
      if int_isspace c && is_empty r then EmptyString else String c r
  end.

Fixpoint count_digits (s : string) : N :=
  match s with
  | EmptyString => 0%N
  | String c s' =>
      match digit_val c with
      | Some _ => N.succ (count_digits s')
      | None => count_digits s'
      end
  end.

(** The interpreter's default limit on the digits of a decimal string
    ([sys.int_max_str_digits], Python 3.10.7 and later). *)
Definition int_max_str_digits : N := 4300%N.

(** [int(s)]; [None] stands for ValueError. *)
Definition py_int (s : string) : option Z :=
  let r := int_rstrip (int_lstrip s) in
  let signed :=
    match r with
    | String "+"%char d => (false, d)
    | String "-"%char d => (true, d)
    | d => (false, d)
    end in
  match parse_digits 0 false (snd signed) with
  | Some n =>
      if (count_digits (snd signed) <=? int_max_str_digits)%N
      then Some (if fst signed then - n else n)
      else None
  | None => None
  end.

(** [row.get(key, default)] with the empty string as default *)
Definition row_get (key : string) (row : Row) : string :=
  default EmptyString (PyDict.get key row).

(** The body of [for row in bonus_list_groups]. *)
Definition track_step (group_to_track : PyDict.dict Z Z) (row : Row)
  : PyDict.dict Z Z :=
  let group_id := row_get "ItemBonusListGroupID" row in
  let track_num := row_get "Field_10_1_0_48898_002" row in
  if str_truthy group_id && str_truthy track_num
  then match py_int group_id with
       | None => group_to_track
       | Some gid =>
           match py_int track_num with
           | None => group_to_track
           | Some tnum =>
               if PyDict.mem tnum TRACK_NAMES
               then PyDict.set gid tnum group_to_track
               else group_to_track
           end
       end
  else group_to_track.

Definition build_group_to_track (bonus_list_groups : list Row) : PyDict.dict Z Z :=
  fold_left track_step bonus_list_groups PyDict.empty.

(** The body of [for row in group_entries]. *)
Definition bonus_step (group_to_bonuses : PyDict.dict Z (list Z)) (row : Row)
  : PyDict.dict Z (list Z) :=
  let group_id := row_get "ItemBonusListGroupID" row in
  let bonus_id := row_get "ItemBonusListID" row in
  if str_truthy group_id && str_truthy bonus_id
  then match py_int group_id with
       | None => group_to_bonuses
       | Some gid =>
           match py_int bonus_id with
           | None => group_to_bonuses
           | Some bid =>
               let d := if negb (PyDict.mem gid group_to_bonuses)
                        then PyDict.set gid [] group_to_bonuses
                        else group_to_bonuses in
               PyDict.set gid (default [] (PyDict.get gid d) ++ [bid])%list d
           end
       end
  else group_to_bonuses.

Definition build_group_to_bonuses (group_entries : list Row)
  : PyDict.dict Z (list Z) :=
  fold_left bonus_step group_entries PyDict.empty.

(** The body of [for group_id, track_num in group_to_track.items()]. *)
Definition join_step (group_to_bonuses : PyDict.dict Z (list Z))
    (bonus_to_track : PyDict.dict Z string) (item : Z * Z)
  : PyDict.dict Z string :=
  let '(group_id, track_num) := item in
  match PyDict.get track_num TRACK_NAMES with
  | None => bonus_to_track
  | Some track_name =>
      if negb (str_truthy track_name) then bonus_to_track
      else
        let bonus_ids := default [] (PyDict.get group_id group_to_bonuses) in
        fold_left (fun acc bonus_id => PyDict.set bonus_id track_name acc)
                  bonus_ids bonus_to_track
  end.

(** The last loop of build_track_mapping, from the two intermediate tables. *)
Definition join_tracks (group_to_track : PyDict.dict Z Z)
    (group_to_bonuses : PyDict.dict Z (list Z)) : PyDict.dict Z string :=
  fold_left (join_step group_to_bonuses) group_to_track PyDict.empty.

Definition list_truthy {A} (l : list A) : bool :=
  match l with [] => false | _ :: _ => true end.

Definition build_track_mapping : M (PyDict.dict Z string) :=
  let! bonus_list_groups := fetch_db2_table "ItemBonusSeasonBonusListGroup" in
  let! group_entries := fetch_db2_table "ItemBonusListGroupEntry" in
  if negb (list_truthy bonus_list_groups) || negb (list_truthy group_entries)
  then
    do! print [Lit "Warning: Failed to fetch required tables"] in
    ret PyDict.empty
  else
    let group_to_track := build_group_to_track bonus_list_groups in
    do! print [Lit "Found "; Fmt (PInt (PyDict.len group_to_track));
               Lit " groups with valid track numbers"] in
    let group_to_bonuses := build_group_to_bonuses group_entries in
    do! print [Lit "Found "; Fmt (PInt (PyDict.len group_to_bonuses));
               Lit " groups with bonus entries"] in
    let bonus_to_track := join_tracks group_to_track group_to_bonuses in
    do! print [Lit "Mapped "; Fmt (PInt (PyDict.len bonus_to_track));
               Lit " bonus IDs to tracks"] in
    ret bonus_to_track.

(** ** generate_lua *)

Fixpoint insert_sorted (x : Z * string) (l : list (Z * string)) : list (Z * string) :=
  match l with
  | [] => [x]
  | y :: l' => if fst x <=? fst y then x :: l else y :: insert_sorted x l'
  end.

(** [dict(sorted(bonus_to_track.items()))]: the keys are distinct, so the
    order of the pairs is the order of the keys. *)
Definition sorted_items (d : PyDict.dict Z string) : PyDict.dict Z string :=
  fold_right insert_sorted [] d.

(** [with open(output_path, "w") as f: f.write(lua_content)]; the content is
    kept as the two values the template is rendered with. *)
Definition write_output (track_ids : PyDict.dict Z string) (build_version : pyval)
  : M unit :=
  if output_writable w then emit (WriteArtifact track_ids build_version)
  else raise OSError.

Definition generate_lua (bonus_to_track : PyDict.dict Z string)
    (build_version : pyval) : M unit :=
  if negb (template_present w)
  then
    do! print [Lit "Error: Template not found at "; FmtPath "TrackData.template"] in
    raise (SystemExit 1)
  else
    let sorted_mapping := sorted_items bonus_to_track in
    do! write_output sorted_mapping build_version in
    print [Lit "Generated "; FmtPath "TrackData.lua"; Lit " (build ";
           Fmt build_version; Lit ")"].

(** ** main *)

(** What [parser.parse_args()] decides for a parser with the one flag: the
    value of [args.force], or SystemExit with code 0 at the help flag and code
    2 at a malformed flag or, once all words are read, when some were not
    recognised. *)
Fixpoint parse_args (tokens : list cli_token) (force extras : bool) : outcome bool :=
  match tokens with
  | [] => if extras then Raise (SystemExit 2) else Ret force
  | TokForce :: ts => parse_args ts true extras
  | TokHelp :: _ => Raise (SystemExit 0)
  | TokBad _ :: _ => Raise (SystemExit 2)
  | TokOther _ :: ts => parse_args ts force true
  end.

(** What argparse writes before it leaves: the help text when it leaves with
    code 0, usage and error message otherwise. *)
Definition argparse_text (e : exn) : event :=
  match e with
  | SystemExit 0 => PrintHelp
  | _ => PrintUsage
  end.

(** [parser.parse_args()] with what it writes. *)
Definition parse_command_line : M bool :=
  match parse_args (argv w) false false with
  | Ret force => ret force
  | Raise e => do! emit (argparse_text e) in raise e
  end.

Definition main : M unit :=
  let! force := parse_command_line in
  let! decision := should_regenerate force in
  let should_regen := fst decision in
  let reason := snd decision in
  if negb should_regen
  then print (Lit "Skipping generation: " :: reason)
  else
    do! print ([Lit "Generating track data from wago.tools ("] ++ reason
               ++ [Lit ")..."])%list in
    let! fetched := fetch_current_build in
    let build_version := py_or fetched (PStr "unknown") in
    let! bonus_to_track := build_track_mapping in
    do! (if negb (PyDict.truthy bonus_to_track)
         then print [Lit "Warning: No bonus ID mappings found, generating empty file"]
         else ret tt) in
    do! generate_lua bonus_to_track build_version in
    print [Lit "Done!"].

End Run.


(** One run of the script in a world: its outcome and its trace. *)
Definition run (w : world) : outcome unit * trace := main w [].

(** ** The specification's vocabulary *)

(** The decision table of the staleness detector, first matching rule wins. *)
Definition decision_table
    (forced artifact_exists marker_extractable build_resolvable same_build : bool)
  : bool :=
  if forced then true
  else if negb artifact_exists then true
  else if negb marker_extractable then true
  else if negb build_resolvable then false
  else if same_build then false
  else true.

(** [existing == current] for the marker read back and the value fetched. *)
Definition same_build (existing : option string) (current : pyval) : bool :=
  match existing with
  | Some s => negb (str_ne s current)
  | None => false
  end.

(** The canonical names: 1=explorer, 2=adventurer, 3=veteran, 4=champion,
    5=hero, 6=myth. *)
Definition canonical_name (track : Z) : string :=
  match track with
  | 1 => "explorer"
  | 2 => "adventurer"
  | 3 => "veteran"
  | 4 => "champion"
  | 5 => "hero"
  | _ => "myth"
  end.

(** Modelled from the spec: the marker line of the template
    TrackData.template, which is not among the sources; the artifact holds
    the literal line [-- Build: <version>]. *)
Definition marker_line (build_version : string) : string :=
  marker_prefix ++ build_version.

(** The text before the marker line ends a line, the text after it starts one. *)
Definition ends_line (pre : string) : Prop :=
  pre = EmptyString \/ exists p, pre = p ++ String newline EmptyString.

Definition starts_line (post : string) : Prop :=
  post = EmptyString \/ exists q, post = String newline q.

(** A row as the specification words it: header names and values, both
    trimmed, zipped by position into a dictionary. *)
Definition zip_row (headers values : list string) : Row :=
  fold_left (fun row hv => PyDict.set (fst hv) (snd hv) row)
            (combine (map strip headers) (map strip values)) PyDict.empty.

(** The table as the specification words it: the first line is the header,
    blank lines are skipped, every other line is zipped against the header. *)
Definition parse_table_spec (body : string) : list Row :=
  match split newline (strip body) with
  | [] => []
  | first :: rest =>
      map (fun line => zip_row (split comma first) (split comma line))
          (filter (fun line => str_truthy (strip line) = true) rest)
  end.

(** A row of the group-to-track table that is recorded: both fields present,
    non-empty and numeric, the track number among the six. *)
Definition valid_track_row (row : Row) (gid tnum : Z) : Prop :=
  str_truthy (row_get "ItemBonusListGroupID" row) = true /\
  str_truthy (row_get "Field_10_1_0_48898_002" row) = true /\
  py_int (row_get "ItemBonusListGroupID" row) = Some gid /\
  py_int (row_get "Field_10_1_0_48898_002" row) = Some tnum /\
  1 <= tnum <= 6.

(** The bonus IDs of a group, [group_to_bonuses.get(group_id, [])]. *)
Definition bonuses_of (group_to_bonuses : PyDict.dict Z (list Z)) (g : Z) : list Z :=
  default [] (PyDict.get g group_to_bonuses).

(** A printed line other than the progress line [Fetching <table>...]. *)
Definition is_diagnostic (e : event) : bool :=
  match e with
  | Print (Lit "Fetching " :: _) => false
  | Print _ => true
  | _ => false
  end.

(** ** Sample worlds *)

Definition ok_json (v : pyval) : reply :=
  Reply {| status_code := 200; text := EmptyString; json_body := Some v |}.

Definition ok_text (body : string) : reply :=
  Reply {| status_code := 200; text := body; json_body := None |}.

(** [{"wow": [{"version": version}]}] *)
Definition builds_doc (version : string) : pyval :=
  PDict [("wow", PList [PDict [("version", PStr version)]])].

Definition sample_tables (table_name : string) : reply :=
  if String.eqb table_name "ItemBonusSeasonBonusListGroup"
  then ok_text "ID,ItemBonusListGroupID,Field_10_1_0_48898_002
1,10,2
2,20,6"
  else ok_text "ID,ItemBonusListGroupID,ItemBonusListID
1,10,100
2,10,101
3,20,200".

(** A previous artifact of build 1.0 while upstream is at build 2.0. *)
Definition stale_world : world := {|
  argv := [];
  output_file := Present "-- Build: 1.0
local TrackData = {}";
  builds_api := fun _ => ok_json (builds_doc "2.0");
  db2_api := sample_tables;
  template_present := true;
  output_writable := true
|}.


(** A world whose previous artifact has the given text. *)
Definition artifact_world (content : string) : world := {|
  argv := [];
  output_file := Present content;
  builds_api := builds_api stale_world;
  db2_api := db2_api stale_world;
  template_present := true;
  output_writable := true
|}.

(** The track table answers with rows, the entries table with its header only. *)
Definition one_table_world : world := {|
  argv := [TokForce];
  output_file := Absent;
  builds_api := builds_api stale_world;
  db2_api := fun table_name =>
    if String.eqb table_name "ItemBonusSeasonBonusListGroup"
    then sample_tables table_name
    else ok_text "ID,ItemBonusListGroupID,ItemBonusListID";
  template_present := true;
  output_writable := true
|}.

(** Two rows of the track table for the same group, with different tracks. *)
Definition duplicate_group_rows : list Row :=
  [[("ItemBonusListGroupID", "10"); ("Field_10_1_0_48898_002", "1")];
   [("ItemBonusListGroupID", "10"); ("Field_10_1_0_48898_002", "2")]].

(** A forced run against a builds document whose first retail entry has no
    version field, and a table endpoint that answers with a header only. *)
Definition versionless_world : world := {|
  argv := [TokForce];
  output_file := Present "-- Build: 1.0";
  builds_api := fun _ => ok_json (PDict [("wow", PList [PDict [("product", PStr "wow")]])]);
  db2_api := fun _ => ok_text "ID,ItemBonusListGroupID";
  template_present := true;
  output_writable := true
|}.

(** A builds reply whose retail entry is a number or [true]: [len] of it
    raises TypeError, which fetch_current_build does not catch. *)
Definition unsized_wow (rp : reply) : bool :=
  match rp with
  | NoReply _ => false
  | Reply r =>
      negb (error_status (status_code r)) &&
      match json_body r with
      | Some (PDict d) =>
          match assoc "wow" d with
          | Some (PBool b) => b
          | Some (PInt n) => negb (n =? 0)
          | _ => false
          end
      | _ => false
      end
  end.

(** Events that neither read the builds endpoint or the artifact nor write. *)
Definition quiet (e : event) : bool :=
  match e with
  | Print _ | GetTable _ => true
  | _ => false
  end.

(** The build versions a trace writes. *)
Fixpoint written_versions (t : trace) : list pyval :=
  match t with
  | [] => []
  | WriteArtifact _ build_version :: t' => build_version :: written_versions t'
  | _ :: t' => written_versions t'
  end.

(** The exceptions that escape the staleness check, each with what brings it
    about: the TypeError of an unsized retail entry and the
    UnicodeDecodeError of an artifact that does not decode. *)
Definition check_escapes (w : world) (e : exn) : Prop :=
  (e = TypeError /\ exists n, unsized_wow (builds_api w n) = true) \/
  (e = UnicodeDecodeError /\ output_file w = Undecodable).

(** The exceptions that end a run, each with what brings it about. *)
Definition escapes (w : world) (e : exn) : Prop :=
  (e = SystemExit 0 /\ parse_args (argv w) false false = Raise (SystemExit 0)) \/
  (e = SystemExit 2 /\ parse_args (argv w) false false = Raise (SystemExit 2)) \/
  (e = SystemExit 1 /\ template_present w = false) \/
  (e = OSError /\ output_writable w = false) \/
  check_escapes w e.



(** A forced run with healthy endpoints and no previous artifact. *)
Definition forced_world : world := {|
  argv := [TokForce];
  output_file := Absent;
  builds_api := builds_api stale_world;
  db2_api := sample_tables;
  template_present := true;
  output_writable := true
|}.

(** An unforced run with a marker in the artifact and a builds document that
    has a number where the retail list should be. *)
Definition unsized_marker_world : world := {|
  argv := [];
  output_file := Present "-- Build: 1.0";
  builds_api := fun _ => ok_json (PDict [("wow", PInt 5)]);
  db2_api := sample_tables;
  template_present := true;
  output_writable := true
|}.

(** An unforced run whose previous artifact holds bytes that do not decode. *)
Definition undecodable_world : world := {|
  argv := [];
  output_file := Undecodable;
  builds_api := builds_api stale_world;
  db2_api := sample_tables;
  template_present := true;
  output_writable := true
|}.


(** An unforced run whose artifact carries the upstream build. *)
Definition fresh_world : world := {|
  argv := [];
  output_file := Present "-- Build: 2.0
local TrackData = {}";
  builds_api := builds_api stale_world;
  db2_api := sample_tables;
  template_present := true;
  output_writable := true
|}.

(** ** Further vocabulary *)

(** The tables a trace requests, in order. *)
Fixpoint table_requests (t : trace) : list string :=
  match t with
  | [] => []
  | GetTable name :: t' => name :: table_requests t'
  | _ :: t' => table_requests t'
  end.

(** What the guard and the two [int] calls of the second loop of
    build_track_mapping let through: the group and the bonus of a row. *)
Definition bonus_entry (row : Row) : option (Z * Z) :=
  let group_id := row_get "ItemBonusListGroupID" row in
  let bonus_id := row_get "ItemBonusListID" row in
  if str_truthy group_id && str_truthy bonus_id
  then match py_int group_id, py_int bonus_id with
       | Some gid, Some bid => Some (gid, bid)
       | _, _ => None
       end
  else None.

(** The bonus a row enters for group [g], if it enters one. *)
Definition bonus_for (g : Z) (row : Row) : option Z :=
  match bonus_entry row with
  | Some (gid, bid) => if decide (gid = g) then Some bid else None
  | None => None
  end.

(** The bonus IDs entered for group [g], in the order of the rows. *)
Fixpoint bonuses_entered (g : Z) (rows : list Row) : list Z :=
  match rows with
  | [] => []
  | row :: rows' =>
      match bonus_for g row with
      | Some bid => bid :: bonuses_entered g rows'
      | None => bonuses_entered g rows'
      end
  end.

(** Keys in strictly ascending order. *)
Fixpoint keys_ascending (d : PyDict.dict Z string) : Prop :=
  match d with
  | [] => True
  | (k, _) :: d' =>
      match d' with
      | [] => True
      | (k', _) :: _ => k < k'
      end /\ keys_ascending d'
  end.

(** A string of whitespace only. *)
Fixpoint all_space (s : string) : bool :=
  match s with
  | EmptyString => true
  | String c s' => py_isspace c && all_space s'
  end.

(** A string with no whitespace at either end. *)
Definition trimmed (s : string) : Prop := strip s = s.

(** The data lines of a body that are not blank. *)
Definition data_lines (body : string) : list string :=
  filter (fun line => str_truthy (strip line) = true)
         (tail (split newline (strip body))).

(** * Properties *)

(** ** Strings and lines *)

Module StrFacts.

Lemma split_nonempty sep s : split sep s <> [].
Proof.
  destruct s as [|c s]; simpl; [discriminate|].
  destruct (Ascii.eqb c sep); [discriminate|].
  destruct (split sep s); discriminate.
Qed.

(** Splitting commutes with concatenation around a separator. *)
Lemma split_app_sep sep a b :
  split sep (a ++ String sep b) = (split sep a ++ split sep b)%list.
Proof.
  induction a as [|c a IH]; simpl.
  - rewrite Ascii.eqb_refl. reflexivity.
  - destruct (Ascii.eqb c sep); [now rewrite IH|].
    rewrite IH. pose proof (split_nonempty sep a) as Hne.
    destruct (split sep a); [contradiction|reflexivity].
Qed.

Lemma split_no_sep sep s :
  contains_char sep s = false -> split sep s = [s].
Proof.
  induction s as [|c s IH]; simpl; [reflexivity|].
  intros H. apply orb_false_iff in H as [Hc Hs].
  rewrite Hc, (IH Hs). reflexivity.
Qed.

Lemma contains_char_app c a b :
  contains_char c (a ++ b) = contains_char c a || contains_char c b.
Proof.
  induction a as [|x a IH]; simpl; [reflexivity|].
  now rewrite IH, orb_assoc.
Qed.

Lemma first_marker_app l1 l2 :
  first_marker (l1 ++ l2) =
  match first_marker l1 with Some g => Some g | None => first_marker l2 end.
Proof.
  induction l1 as [|l l1 IH]; simpl; [now destruct (first_marker l2)|].
  destruct (match_marker_line l); [reflexivity|exact IH].
Qed.

Lemma match_marker_line_rendered v :
  v <> EmptyString -> match_marker_line (marker_line v) = Some v.
Proof.
  intros Hv. unfold match_marker_line, marker_line, marker_prefix. simpl.
  destruct v; [contradiction|reflexivity].
Qed.

Lemma app_assoc_str (a b c : string) : (a ++ b) ++ c = a ++ (b ++ c).
Proof. induction a as [|x a IH]; simpl; [reflexivity|now rewrite IH]. Qed.

Lemma app_empty_l (a : string) : EmptyString ++ a = a.
Proof. reflexivity. Qed.

Lemma app_cons c (a b : string) : String c a ++ b = String c (a ++ b).
Proof. reflexivity. Qed.

Lemma app_empty_r (a : string) : a ++ EmptyString = a.
Proof. induction a as [|x a IH]; simpl; [reflexivity|now rewrite IH]. Qed.

(** The lines of the marker line followed by the rest of the artifact. *)
Lemma split_marker_post v post :
  contains_char newline v = false -> starts_line post ->
  exists ls, split newline (marker_line v ++ post) = marker_line v :: ls.
Proof.
  intros Hv [-> | [q ->]].
  - exists []. rewrite app_empty_r. apply split_no_sep.
    unfold marker_line. rewrite contains_char_app, Hv. reflexivity.
  - exists (split newline q). rewrite split_app_sep, split_no_sep; [reflexivity|].
    unfold marker_line. rewrite contains_char_app, Hv. reflexivity.
Qed.

(** The search finds the rendered line when nothing before it matches. *)
Lemma re_search_build_rendered v pre post :
  v <> EmptyString -> contains_char newline v = false ->
  ends_line pre -> starts_line post ->
  re_search_build pre = None ->
  re_search_build (pre ++ marker_line v ++ post) = Some v.
Proof.
  intros Hne Hnl Hpre Hpost Hnone.
  destruct (split_marker_post v post Hnl Hpost) as [ls Hls].
  unfold re_search_build in *.
  destruct Hpre as [-> | [p ->]].
  - rewrite app_empty_l, Hls. simpl. now rewrite match_marker_line_rendered.
  - rewrite app_assoc_str, app_cons, app_empty_l.
    rewrite split_app_sep, first_marker_app.
    rewrite split_app_sep, first_marker_app in Hnone.
    destruct (first_marker (split newline p)); [discriminate|].
    rewrite Hls. simpl. now rewrite match_marker_line_rendered.
Qed.

(** Line-end translation leaves a character that is no line end where it is,
    whatever came before it. *)
Lemma newlines_from_app_char b pre c r :
  Ascii.eqb c carriage_return = false -> Ascii.eqb c newline = false ->
  newlines_from b (pre ++ String c r) =
  newlines_from b pre ++ String c (newlines_from false r).
Proof.
  intros Hcr Hlf. revert b. induction pre as [|a pre IH]; intros b.
  - simpl. now rewrite Hcr, Hlf.
  - rewrite app_cons. cbn [newlines_from].
    destruct (Ascii.eqb a carriage_return); [now rewrite IH|].
    destruct (Ascii.eqb a newline); [destruct b; now rewrite IH|].
    now rewrite IH.
Qed.

(** A stretch without line ends is read as it is, and what follows it is read
    as if it stood alone. *)
Lemma newlines_from_plain a s :
  contains_char carriage_return a = false -> contains_char newline a = false ->
  newlines_from false (a ++ s) = a ++ newlines_from false s.
Proof.
  induction a as [|c a IH]; intros Hcr Hlf; [reflexivity|].
  simpl in Hcr, Hlf.
  apply orb_false_iff in Hcr as [Hc1 Hcr]. apply orb_false_iff in Hlf as [Hc2 Hlf].
  rewrite app_cons. cbn [newlines_from]. rewrite Hc1, Hc2.
  now rewrite (IH Hcr Hlf).
Qed.

(** The rendered line goes through the reading unchanged. *)
Lemma universal_newlines_marker v pre post :
  contains_char carriage_return v = false -> contains_char newline v = false ->
  universal_newlines (pre ++ marker_line v ++ post) =
  universal_newlines pre ++ marker_line v ++ universal_newlines post.
Proof.
  intros Hcr Hlf. unfold universal_newlines, marker_line, marker_prefix.
  change ("-- Build: " ++ v) with (String "-" ("- Build: " ++ v)).
  rewrite app_cons, newlines_from_app_char by reflexivity.
  rewrite newlines_from_plain; [reflexivity| |];
    rewrite contains_char_app; [now rewrite Hcr|now rewrite Hlf].
Qed.

End StrFacts.

(** ** The marker round trip *)

(** C3, as amended.  For every non-empty build version [v] with no line
    break, LF or CR, and no leading or trailing whitespace, and every artifact
    text in which the rendered line [-- Build: v] stands on a line of its own
    and no earlier line of the text, as read_text returns it, is found by the
    marker search, get_existing_build returns exactly [v]. *)
Theorem get_existing_build_roundtrip (w : world) (t : trace) (v pre post : string) :
  v <> EmptyString ->
  contains_char newline v = false ->
  contains_char carriage_return v = false ->
  strip v = v ->
  ends_line (universal_newlines pre) -> starts_line (universal_newlines post) ->
  re_search_build (universal_newlines pre) = None ->
  output_file w = Present (pre ++ marker_line v ++ post) ->
  get_existing_build w t = (Ret (Some v), (t ++ [ReadArtifact])%list).
Proof.
  intros Hne Hnl Hcr Hstrip Hpre Hpost Hnone Hfile.
  unfold get_existing_build, output_exists, try_except, read_text, bind, emit.
  rewrite Hfile. cbn [negb ret].
  rewrite (StrFacts.universal_newlines_marker v pre post Hcr Hnl).
  rewrite (StrFacts.re_search_build_rendered v _ _ Hne Hnl Hpre Hpost Hnone).
  unfold ret. now rewrite Hstrip.
Qed.

Lemma get_existing_build_roundtrip_witness :
  get_existing_build
    (artifact_world ("-- Generated file
" ++ marker_line "1.2.3.45678" ++ "
local TrackData = {}")) [] = (Ret (Some "1.2.3.45678"), [ReadArtifact]).
Proof.
  apply (get_existing_build_roundtrip _ [] "1.2.3.45678" "-- Generated file
" "
local TrackData = {}").
  - discriminate.
  - reflexivity.
  - reflexivity.
  - reflexivity.
  - right. exists "-- Generated file". reflexivity.
  - right. exists "local TrackData = {}". reflexivity.
  - reflexivity.
  - reflexivity.
Defined.

(** C3 as stated fails at the empty version string, whose rendered line the
    pattern does not match; on a text with an earlier marker line, which the
    first-match search returns instead; and at a version with a carriage
    return inside, which read_text turns into a line end. *)
Lemma get_existing_build_roundtrip_counterexample :
  (contains_char newline EmptyString = false /\
   strip EmptyString = EmptyString /\
   fst (get_existing_build (artifact_world (marker_line EmptyString)) [])
   = Ret None) /\
  (contains_char newline "2.0" = false /\ strip "2.0" = "2.0" /\
   fst (get_existing_build
          (artifact_world (marker_line "1.0" ++ "
" ++ marker_line "2.0")) []) = Ret (Some "1.0")) /\
  (contains_char newline ("1.0" ++ String carriage_return "2") = false /\
   strip ("1.0" ++ String carriage_return "2")
   = "1.0" ++ String carriage_return "2" /\
   fst (get_existing_build
          (artifact_world (marker_line ("1.0" ++ String carriage_return "2"))) [])
   = Ret (Some "1.0")).
Proof. repeat split; reflexivity. Qed.

(** ** The staleness decision *)

(** Where get_existing_build and fetch_current_build return,
    should_regenerate returns the decision of the six-rule table. *)
Lemma should_regenerate_follows_table
    (w : world) (force : bool) (t t1 t2 : trace)
    (existing : option string) (current : pyval) :
  get_existing_build w t = (Ret existing, t1) ->
  fetch_current_build w t1 = (Ret current, t2) ->
  exists reason t',
    should_regenerate w force t =
    (Ret (decision_table force (output_exists w) (opt_str_truthy existing)
            (py_truthy current) (same_build existing current), reason), t').
Proof.
  intros Hex Hcur. unfold should_regenerate, decision_table.
  destruct force; [eexists _, _; reflexivity|].
  destruct (output_exists w); cbn [negb]; [|eexists _, _; reflexivity].
  unfold bind at 1. rewrite Hex.
  destruct existing as [existing|]; cbn [opt_str_truthy negb];
    [|eexists _, _; reflexivity].
  destruct (str_truthy existing); cbn [negb]; [|eexists _, _; reflexivity].
  unfold bind at 1. rewrite Hcur.
  destruct (py_truthy current); cbn [negb same_build].
  - destruct (str_ne existing current); eexists _, _; reflexivity.
  - eexists _, _; reflexivity.
Qed.

(** C1.  should_regenerate does not return the decision of the table on every
    input.  With a marker in the artifact and a builds document whose retail
    entry is the number 5, the current build cannot be resolved and the table
    says not to regenerate, but the TypeError of [len] escapes
    fetch_current_build and should_regenerate with it.  With an artifact that
    does not decode, no marker can be extracted and the table says to
    regenerate, but the UnicodeDecodeError escapes get_existing_build and
    should_regenerate with it. *)
Theorem should_regenerate_raises :
  (output_exists unsized_marker_world = true /\
   fst (get_existing_build unsized_marker_world []) = Ret (Some "1.0") /\
   builds_api unsized_marker_world 0 = ok_json (PDict [("wow", PInt 5)]) /\
   fst (fetch_current_build unsized_marker_world [ReadArtifact]) = Raise TypeError /\
   decision_table false true true false false = false /\
   fst (should_regenerate unsized_marker_world false []) = Raise TypeError) /\
  (output_exists undecodable_world = true /\
   fst (get_existing_build undecodable_world []) = Raise UnicodeDecodeError /\
   decision_table false true false true false = true /\
   fst (should_regenerate undecodable_world false [])
   = Raise UnicodeDecodeError).
Proof. repeat split; reflexivity. Qed.

(** ** What each function adds to the trace and what it can raise *)

Module Effects.
Local Open Scope list_scope.

Lemma count_events_app p (t1 t2 : trace) :
  count_events p (t1 ++ t2) = (count_events p t1 + count_events p t2)%nat.
Proof.
  induction t1 as [|e t1 IH]; [reflexivity|].
  simpl. rewrite IH. lia.
Qed.

Lemma written_versions_app (t1 t2 : trace) :
  written_versions (t1 ++ t2) = (written_versions t1 ++ written_versions t2)%list.
Proof.
  induction t1 as [|e t1 IH]; [reflexivity|].
  destruct e; simpl; now rewrite IH.
Qed.

Lemma quiet_counts (evs : trace) :
  forallb quiet evs = true ->
  count_events is_GetBuilds evs = 0%nat /\
  count_events is_ReadArtifact evs = 0%nat /\
  written_versions evs = [].
Proof.
  induction evs as [|e evs IH]; [easy|].
  simpl. intros H. apply andb_true_iff in H as [He Hevs].
  destruct (IH Hevs) as (IH1 & IH2 & IH3).
  destruct e; try discriminate; repeat split; assumption.
Qed.

Lemma forallb_quiet_app (l1 l2 : trace) :
  forallb quiet l1 = true -> forallb quiet l2 = true ->
  forallb quiet (l1 ++ l2) = true.
Proof. intros H1 H2. rewrite forallb_app, H1, H2. reflexivity. Qed.

(** Closes a case in which the function returns and nothing escapes. *)
Ltac returns_normally := eexists; split; [reflexivity|discriminate].

(** fetch_current_build makes exactly one builds request; the only exception
    that escapes it is the TypeError of an unsized retail entry. *)
Lemma fetch_current_build_shape (w : world) (t : trace) :
  exists o,
    fetch_current_build w t = (o, (t ++ [GetBuilds])%list) /\
    forall e, o = Raise e ->
      e = TypeError /\
      unsized_wow (builds_api w (count_events is_GetBuilds t)) = true.
Proof.
  unfold fetch_current_build, try_except, bind, requests_get_builds,
    raise_for_status, response_json, unsized_wow.
  destruct (builds_api w (count_events is_GetBuilds t)) as [f|[st tx jb]].
  { destruct f; returns_normally. }
  cbn [status_code json_body].
  destruct (error_status st); [returns_normally|].
  destruct jb as [v|]; [|returns_normally].
  destruct v as [| | | |l|d]; try returns_normally.
  cbn [raise ret lift py_get].
  destruct (assoc "wow" d) as [x|]; [|returns_normally].
  destruct x as [|b|n|s|l|d'].
  - returns_normally.
  - destruct b; [|returns_normally].
    eexists; split; [reflexivity|]. intros e [= <-]. easy.
  - cbn [py_truthy]. destruct (n =? 0); [returns_normally|].
    eexists; split; [reflexivity|]. intros e [= <-]. easy.
  - destruct s; returns_normally.
  - destruct l as [|entry l]; [returns_normally|].
    destruct entry as [| | | | |e']; returns_normally.
  - destruct d' as [|kv d']; returns_normally.
Qed.

(** get_existing_build reads the artifact at most once; the only exception
    that escapes it is the UnicodeDecodeError of an artifact that does not
    decode. *)
Lemma get_existing_build_shape (w : world) (t : trace) :
  exists o evs,
    get_existing_build w t = (o, (t ++ evs)%list) /\
    (evs = [] \/ evs = [ReadArtifact]) /\
    forall e, o = Raise e ->
      e = UnicodeDecodeError /\ output_file w = Undecodable.
Proof.
  unfold get_existing_build, output_exists, try_except, read_text, bind, emit.
  destruct (output_file w) as [| | |content]; cbn [negb ret raise is_OSError].
  - exists (Ret None), []. rewrite app_nil_r. repeat split; auto; discriminate.
  - exists (Ret None), [ReadArtifact]. repeat split; auto; discriminate.
  - exists (Raise UnicodeDecodeError), [ReadArtifact].
    split; [reflexivity|]. split; [now right|]. intros e [= <-]. now split.
  - destruct (re_search_build (universal_newlines content));
      eexists _, [ReadArtifact]; (split; [reflexivity|]);
      (split; [now right|discriminate]).
Qed.

(** Closes the side conditions of a shape lemma once the trace is given. *)
Ltac shape_done :=
  repeat split; try reflexivity; try (simpl; lia); try assumption;
  try discriminate.

(** should_regenerate reads the artifact and the builds endpoint at most once
    each and writes nothing. *)
Lemma should_regenerate_shape (w : world) (force : bool) (t : trace) :
  exists o evs,
    should_regenerate w force t = (o, t ++ evs) /\
    (count_events is_GetBuilds evs <= 1)%nat /\
    (count_events is_ReadArtifact evs <= 1)%nat /\
    written_versions evs = [] /\
    forall e, o = Raise e -> check_escapes w e.
Proof.
  unfold should_regenerate.
  destruct force.
  { eexists _, []. rewrite app_nil_r. shape_done. }
  destruct (output_exists w); cbn [negb].
  2:{ eexists _, []. rewrite app_nil_r. shape_done. }
  destruct (get_existing_build_shape w t) as (oex & evs1 & Hex & Hevs1 & Hraise1).
  assert (Hc1 : count_events is_GetBuilds evs1 = 0%nat /\
                (count_events is_ReadArtifact evs1 <= 1)%nat /\
                written_versions evs1 = []).
  { destruct Hevs1 as [-> | ->]; simpl; repeat split; lia. }
  destruct Hc1 as (Hg1 & Hr1 & Hw1).
  destruct oex as [existing|e].
  2:{ unfold bind at 1. rewrite Hex. exists (Raise e), evs1.
      split; [reflexivity|]. split; [lia|]. split; [lia|]. split; [assumption|].
      intros e0 [= <-]. right. apply (Hraise1 e eq_refl). }
  unfold bind at 1. rewrite Hex.
  assert (Hstop : forall reason : fstring,
    exists o evs,
      (Ret (true, reason), t ++ evs1) = (o, t ++ evs) /\
      (count_events is_GetBuilds evs <= 1)%nat /\
      (count_events is_ReadArtifact evs <= 1)%nat /\
      written_versions evs = [] /\
      forall e, o = Raise e -> check_escapes w e).
  { intros reason. eexists _, evs1. shape_done. }
  destruct existing as [existing|]; [|apply Hstop].
  destruct (str_truthy existing); cbn [negb]; [|apply Hstop].
  destruct (fetch_current_build_shape w (t ++ evs1)) as (o & Hf & Hraise).
  unfold bind at 1. rewrite Hf.
  destruct o as [current|e].
  - destruct (py_truthy current); cbn [negb].
    + destruct (str_ne existing current);
        eexists _, (evs1 ++ [GetBuilds]); rewrite app_assoc;
        (split; [reflexivity|]);
        rewrite !count_events_app, written_versions_app, Hw1; simpl;
        shape_done.
    + eexists _, (evs1 ++ [GetBuilds] ++ [Print _]).
      unfold bind, print, emit, ret. rewrite !app_assoc.
      split; [reflexivity|].
      rewrite <- !app_assoc.
      rewrite !count_events_app, !written_versions_app, Hw1; simpl.
      shape_done.
  - eexists _, (evs1 ++ [GetBuilds]). rewrite app_assoc.
    split; [reflexivity|].
    rewrite !count_events_app, written_versions_app, Hw1; simpl.
    split; [lia|]. split; [lia|]. split; [reflexivity|].
    intros e0 [= <-]. left. destruct (Hraise e eq_refl) as [-> Hu].
    split; [reflexivity|]. eexists. exact Hu.
Qed.

(** The three ways fetch_db2_table ends, with the lines it prints. *)
Lemma fetch_db2_table_cases (w : world) (table_name : string) (t : trace) :
  fetch_db2_table w table_name t =
  match db2_api w table_name with
  | NoReply f =>
      (Ret [], t ++ [Print [Lit "Fetching "; Fmt (PStr table_name); Lit "..."];
                     GetTable table_name;
                     Print [Lit "Error fetching "; Fmt (PStr table_name);
                            Lit ": "; FmtExn (exn_of_failure f)]])
  | Reply r =>
      if error_status (status_code r)
      then (Ret [], t ++ [Print [Lit "Fetching "; Fmt (PStr table_name); Lit "..."];
                          GetTable table_name;
                          Print [Lit "Error fetching "; Fmt (PStr table_name);
                                 Lit ": "; FmtExn HTTPError]])
      else (Ret (parse_table (text r)),
            t ++ [Print [Lit "Fetching "; Fmt (PStr table_name); Lit "..."];
                  GetTable table_name])
  end.
Proof.
  unfold fetch_db2_table, try_except, requests_get_table, raise_for_status,
    bind, print, emit, ret, raise.
  destruct (db2_api w table_name) as [f|r].
  - destruct f; cbn; now rewrite <- !app_assoc.
  - destruct (error_status (status_code r)); cbn; now rewrite <- !app_assoc.
Qed.

Lemma fetch_db2_table_shape (w : world) (table_name : string) (t : trace) :
  exists rows evs,
    fetch_db2_table w table_name t = (Ret rows, t ++ evs) /\
    forallb quiet evs = true.
Proof.
  rewrite fetch_db2_table_cases.
  destruct (db2_api w table_name) as [f|r];
    [|destruct (error_status (status_code r))];
    eexists _, _; split; reflexivity.
Qed.

(** build_track_mapping always returns; it only prints and fetches tables. *)
Lemma build_track_mapping_shape (w : world) (t : trace) :
  exists mapping evs,
    build_track_mapping w t = (Ret mapping, t ++ evs) /\
    forallb quiet evs = true.
Proof.
  unfold build_track_mapping.
  destruct (fetch_db2_table_shape w "ItemBonusSeasonBonusListGroup" t)
    as (rows1 & evs1 & H1 & Hq1).
  destruct (fetch_db2_table_shape w "ItemBonusListGroupEntry" (t ++ evs1))
    as (rows2 & evs2 & H2 & Hq2).
  unfold bind at 1. rewrite H1. unfold bind at 1. rewrite H2.
  destruct (negb (list_truthy rows1) || negb (list_truthy rows2)).
  - eexists _, (evs1 ++ evs2 ++ [Print _]).
    unfold bind, print, emit, ret. rewrite !app_assoc.
    split; [reflexivity|].
    rewrite <- !app_assoc, !forallb_app, Hq1, Hq2. reflexivity.
  - eexists _, (evs1 ++ evs2 ++ [Print _; Print _; Print _]).
    unfold bind, print, emit, ret. cbn.
    rewrite <- !app_assoc. cbn.
    split; [reflexivity|].
    rewrite !forallb_app, Hq1, Hq2. reflexivity.
Qed.

(** generate_lua stops at a missing template or an unwritable output, and
    otherwise writes once, with the build version it was given. *)
Lemma generate_lua_shape (w : world) (mapping : PyDict.dict Z string)
    (build_version : pyval) (t : trace) :
  exists o evs,
    generate_lua w mapping build_version t = (o, t ++ evs) /\
    count_events is_GetBuilds evs = 0%nat /\
    count_events is_ReadArtifact evs = 0%nat /\
    (written_versions evs = [] \/ written_versions evs = [build_version]) /\
    forall e, o = Raise e ->
      (e = SystemExit 1 /\ template_present w = false) \/
      (e = OSError /\ output_writable w = false).
Proof.
  unfold generate_lua, write_output, bind, print, emit, raise, ret.
  destruct (template_present w) eqn:Htpl; cbn [negb].
  - destruct (output_writable w) eqn:Hwr.
    + eexists _, [WriteArtifact _ _; Print _]. rewrite <- app_assoc.
      split; [reflexivity|]. cbn. shape_done. right; reflexivity.
    + eexists _, []. rewrite app_nil_r.
      split; [reflexivity|]. cbn. shape_done. left; reflexivity.
      intros e [= <-]. right. split; reflexivity.
  - eexists _, [Print _].
    split; [reflexivity|]. cbn. shape_done. left; reflexivity.
    intros e [= <-]. left. split; reflexivity.
Qed.

Lemma parse_args_raises (tokens : list cli_token) (force extras : bool) (e : exn) :
  parse_args tokens force extras = Raise e ->
  e = SystemExit 0 \/ e = SystemExit 2.
Proof.
  revert force extras.
  induction tokens as [|tok tokens IH]; intros force extras; simpl.
  - destruct extras; [intros [= <-]; now right|discriminate].
  - destruct tok;
      [apply IH|intros [= <-]; now left|intros [= <-]; now right|apply IH].
Qed.

(** What argparse writes is neither a request, a read nor a write. *)
Lemma argparse_text_quiet (e : exn) :
  written_versions [argparse_text e] = [] /\
  table_requests [argparse_text e] = [] /\
  count_events is_GetBuilds [argparse_text e] = 0%nat /\
  count_events is_ReadArtifact [argparse_text e] = 0%nat /\
  (argparse_text e = PrintHelp \/ argparse_text e = PrintUsage).
Proof.
  destruct e as [| | | | | | | | | |code]; try (repeat split; now right).
  destruct code; repeat split; (now left) || (now right).
Qed.

(** parse_args with what argparse writes when it ends the run. *)
Lemma parse_command_line_eq (w : world) (t : trace) :
  parse_command_line w t =
  match parse_args (argv w) false false with
  | Ret force => (Ret force, t)
  | Raise e => (Raise e, t ++ [argparse_text e])
  end.
Proof.
  unfold parse_command_line.
  destruct (parse_args (argv w) false false); reflexivity.
Qed.

Ltac splits := repeat match goal with |- _ /\ _ => split end.

Lemma bind_ret_eq {A B} (m : M A) (k : A -> M B) t a t' :
  m t = (Ret a, t') -> bind m k t = k a t'.
Proof. unfold bind. now intros ->. Qed.

Lemma bind_raise_eq {A B} (m : M A) (k : A -> M B) t e t' :
  m t = (Raise e, t') -> bind m k t = (Raise e, t').
Proof. unfold bind. now intros ->. Qed.

Lemma print_eq line t : print line t = (Ret tt, t ++ [Print line]).
Proof. reflexivity. Qed.

(** A run reads the builds endpoint at most twice and the artifact at most
    once; what it writes is the value of its last builds fetch, or "unknown"
    in its place; and it ends abnormally only in the ways of [escapes]. *)
Lemma main_shape (w : world) :
  exists o tr,
    run w = (o, tr) /\
    (count_events is_GetBuilds tr <= 2)%nat /\
    (count_events is_ReadArtifact tr <= 1)%nat /\
    (forall e, o = Raise e -> escapes w e) /\
    (forall bv, In bv (written_versions tr) ->
       exists t1 evs2 v,
         tr = t1 ++ GetBuilds :: evs2 /\
         count_events is_GetBuilds evs2 = 0%nat /\
         fetch_current_build w t1 = (Ret v, t1 ++ [GetBuilds]) /\
         bv = py_or v (PStr "unknown")).
Proof.
  unfold run, main.
  pose proof (parse_command_line_eq w []) as Hcl.
  destruct (parse_args (argv w) false false) as [force|e] eqn:Hp.
  2:{ rewrite (bind_raise_eq _ _ _ _ _ Hcl).
      exists (Raise e), [argparse_text e]. split; [reflexivity|].
      destruct (parse_args_raises _ _ _ _ Hp) as [-> | ->]; cbn;
        splits; try reflexivity; try lia; try (now intros ? []);
        intros e0 [= <-]; [left|right; left]; auto. }
  rewrite (bind_ret_eq _ _ _ _ _ Hcl).
  destruct (should_regenerate_shape w force []) as (o1 & evs1 & H1 & Hg1 & Hr1 & Hw1 & Hraise1).
  cbn [app] in H1.
  destruct o1 as [[should_regen reason]|e].
  2:{ rewrite (bind_raise_eq _ _ _ _ _ H1).
      exists (Raise e), evs1. rewrite Hw1. splits; try reflexivity; try lia; try (now intros ? []).
      intros e0 [= <-]. right; right; right; right. apply (Hraise1 e eq_refl). }
  rewrite (bind_ret_eq _ _ _ _ _ H1). cbn [fst snd].
  destruct should_regen; cbn [negb].
  2:{ rewrite print_eq. eexists _, _. split; [reflexivity|].
      rewrite !count_events_app, written_versions_app, Hw1. cbn.
      splits; try reflexivity; try lia; try (now intros ? []); try discriminate. }
  rewrite (bind_ret_eq _ _ _ _ _ (print_eq _ _)).
  set (t1 := evs1 ++ [Print _]).
  assert (Ht1 : count_events is_GetBuilds t1 = count_events is_GetBuilds evs1 /\
                count_events is_ReadArtifact t1 = count_events is_ReadArtifact evs1 /\
                written_versions t1 = []).
  { unfold t1. rewrite !count_events_app, written_versions_app, Hw1. cbn.
    splits; try reflexivity; lia. }
  destruct Ht1 as (Hg1' & Hr1' & Hw1').
  destruct (fetch_current_build_shape w t1) as (o2 & H2 & Hraise2).
  destruct o2 as [v|e].
  2:{ rewrite (bind_raise_eq _ _ _ _ _ H2).
      eexists _, _. split; [reflexivity|].
      rewrite !count_events_app, written_versions_app, Hw1'. cbn.
      splits; try reflexivity; try lia; try (now intros ? []).
      intros e0 [= <-]. right; right; right; right. left.
      destruct (Hraise2 e eq_refl) as [-> Hu]. split; [reflexivity|]. eexists; exact Hu. }
  rewrite (bind_ret_eq _ _ _ _ _ H2).
  destruct (build_track_mapping_shape w (t1 ++ [GetBuilds])) as (m & evs3 & H3 & Hq3).
  rewrite (bind_ret_eq _ _ _ _ _ H3).
  destruct (quiet_counts _ Hq3) as (Hg3 & Hr3 & Hw3).
  assert (H4 : exists evs4,
    (if negb (PyDict.truthy m)
     then print [Lit "Warning: No bonus ID mappings found, generating empty file"]
     else ret tt) ((t1 ++ [GetBuilds]) ++ evs3)
    = (Ret tt, ((t1 ++ [GetBuilds]) ++ evs3) ++ evs4) /\ forallb quiet evs4 = true).
  { destruct (negb (PyDict.truthy m)).
    - eexists [Print _]. split; reflexivity.
    - exists []. rewrite app_nil_r. split; reflexivity. }
  destruct H4 as (evs4 & H4 & Hq4).
  rewrite (bind_ret_eq _ _ _ _ _ H4).
  destruct (quiet_counts _ Hq4) as (Hg4 & Hr4 & Hw4).
  destruct (generate_lua_shape w m (py_or v (PStr "unknown"))
              (((t1 ++ [GetBuilds]) ++ evs3) ++ evs4))
    as (o5 & evs5 & H5 & Hg5 & Hr5 & Hw5 & Hraise5).
  assert (Hwritten : forall evs6,
    written_versions evs6 = [] -> count_events is_GetBuilds evs6 = 0%nat ->
    forall bv,
      In bv (written_versions ((((t1 ++ [GetBuilds]) ++ evs3) ++ evs4) ++ evs5 ++ evs6)) ->
      exists t0 evs2 v0,
        (((t1 ++ [GetBuilds]) ++ evs3) ++ evs4) ++ evs5 ++ evs6 = t0 ++ GetBuilds :: evs2 /\
        count_events is_GetBuilds evs2 = 0%nat /\
        fetch_current_build w t0 = (Ret v0, t0 ++ [GetBuilds]) /\
        bv = py_or v0 (PStr "unknown")).
  { intros evs6 Hw6 Hg6 bv Hin.
    exists t1, (evs3 ++ evs4 ++ evs5 ++ evs6), v.
    split; [now rewrite <- !app_assoc|].
    split; [rewrite !count_events_app; lia|].
    split; [exact H2|].
    rewrite !written_versions_app, Hw1', Hw3, Hw4, Hw6 in Hin. cbn in Hin.
    rewrite app_nil_r in Hin.
    destruct Hw5 as [Hw5 | Hw5]; rewrite Hw5 in Hin; cbn in Hin; intuition. }
  destruct o5 as [[]|e].
  - rewrite (bind_ret_eq _ _ _ _ _ H5), print_eq.
    eexists _, _. split; [reflexivity|].
    splits.
    + rewrite !count_events_app. cbn. lia.
    + rewrite !count_events_app. cbn. lia.
    + discriminate.
    + rewrite <- (app_assoc _ evs5). apply Hwritten; reflexivity.
  - rewrite (bind_raise_eq _ _ _ _ _ H5).
    eexists _, _. split; [reflexivity|].
    splits.
    + rewrite !count_events_app. cbn. lia.
    + rewrite !count_events_app. cbn. lia.
    + intros e0 [= <-]. destruct (Hraise5 e eq_refl) as [H | H].
      * right; right; left. exact H.
      * right; right; right; left. exact H.
    + rewrite <- (app_nil_r evs5). apply Hwritten; reflexivity.
Qed.

(** A run, step by step. *)
Lemma run_unfold (w : world) :
  run w =
  match parse_args (argv w) false false with
  | Raise e => (Raise e, [argparse_text e])
  | Ret force =>
      match should_regenerate w force [] with
      | (Raise e, t) => (Raise e, t)
      | (Ret (false, reason), t) =>
          (Ret tt, t ++ [Print (Lit "Skipping generation: " :: reason)])
      | (Ret (true, reason), t) =>
          let t1 := t ++ [Print ([Lit "Generating track data from wago.tools ("]
                                   ++ reason ++ [Lit ")..."])] in
          match fetch_current_build w t1 with
          | (Raise e, t2) => (Raise e, t2)
          | (Ret fetched, t2) =>
              match build_track_mapping w t2 with
              | (Raise e, t3) => (Raise e, t3)
              | (Ret mapping, t3) =>
                  let t4 :=
                    t3 ++ (if PyDict.truthy mapping then []
                           else [Print [Lit "Warning: No bonus ID mappings found, generating empty file"]]) in
                  if negb (template_present w)
                  then (Raise (SystemExit 1),
                        t4 ++ [Print [Lit "Error: Template not found at ";
                                      FmtPath "TrackData.template"]])
                  else if output_writable w
                  then (Ret tt,
                        t4 ++ [WriteArtifact (sorted_items mapping)
                                 (py_or fetched (PStr "unknown"));
                               Print [Lit "Generated "; FmtPath "TrackData.lua";
                                      Lit " (build ";
                                      Fmt (py_or fetched (PStr "unknown"));
                                      Lit ")"];
                               Print [Lit "Done!"]])
                  else (Raise OSError, t4)
              end
          end
      end
  end.
Proof.
  unfold run, main.
  pose proof (parse_command_line_eq w []) as Hcl.
  destruct (parse_args (argv w) false false) as [force|e].
  2:{ now rewrite (bind_raise_eq _ _ _ _ _ Hcl). }
  rewrite (bind_ret_eq _ _ _ _ _ Hcl).
  destruct (should_regenerate w force []) as [[[should_regen reason]|e] t] eqn:Hsr.
  2:{ now rewrite (bind_raise_eq _ _ _ _ _ Hsr). }
  rewrite (bind_ret_eq _ _ _ _ _ Hsr). cbn [fst snd].
  destruct should_regen; cbn [negb]; [|reflexivity].
  rewrite (bind_ret_eq _ _ _ _ _ (print_eq _ _)). cbn zeta.
  destruct (fetch_current_build w _) as [[fetched|e] t2] eqn:Hf.
  2:{ now rewrite (bind_raise_eq _ _ _ _ _ Hf). }
  rewrite (bind_ret_eq _ _ _ _ _ Hf).
  destruct (build_track_mapping w t2) as [[mapping|e] t3] eqn:Hb.
  2:{ now rewrite (bind_raise_eq _ _ _ _ _ Hb). }
  rewrite (bind_ret_eq _ _ _ _ _ Hb).
  unfold generate_lua, write_output, bind, print, emit, raise, ret.
  destruct (PyDict.truthy mapping); cbn [negb];
    destruct (template_present w); cbn [negb];
    destruct (output_writable w); rewrite <- ?app_assoc, ?app_nil_r; reflexivity.
Qed.

End Effects.

(** ** Reads of the upstream build *)

Section RunClaims.
Import Effects.
Local Open Scope list_scope.

(** C4, as amended.  In every run the marker of the previous artifact is read
    at most once and the builds endpoint at most twice: at most once by the
    staleness check, and once more by main to embed the version when
    regeneration goes ahead. *)
Theorem build_read_at_most_twice (w : world) :
  (count_events is_GetBuilds (snd (run w)) <= 2)%nat /\
  (count_events is_ReadArtifact (snd (run w)) <= 1)%nat /\
  (forall force t,
     count_events is_GetBuilds (snd (should_regenerate w force t))
     <= count_events is_GetBuilds t + 1)%nat.
Proof.
  destruct (main_shape w) as (o & tr & Hrun & Hg & Hr & _).
  rewrite Hrun. cbn [snd]. splits; try assumption.
  intros force t.
  destruct (should_regenerate_shape w force t) as (o' & evs & Heq & Hg' & _).
  rewrite Heq. cbn [snd]. rewrite count_events_app. lia.
Qed.

(** C4 as stated fails when the build has changed: the staleness check reads
    the builds endpoint and main reads it again. *)
Lemma build_read_at_most_once_counterexample :
  count_events is_GetBuilds (snd (run stale_world)) = 2%nat /\
  ~ (count_events is_GetBuilds (snd (run stale_world)) <= 1)%nat.
Proof. split; [reflexivity|]. vm_compute. lia. Qed.

(** ** fetch_db2_table fails soft *)

(** C5, as amended.  fetch_db2_table always returns a row list and never
    raises.  The list is empty after a failed request, after an error status
    (4xx or 5xx) and for a body of fewer than two lines; in the first two
    cases one error line is printed, in the third nothing but the progress
    line. *)
Theorem fetch_db2_table_fails_soft (w : world) (table_name : string) (t : trace) :
  exists rows evs,
    fetch_db2_table w table_name t = (Ret rows, t ++ evs) /\
    (forall f, db2_api w table_name = NoReply f ->
       rows = [] /\ count_events is_diagnostic evs = 1%nat) /\
    (forall r, db2_api w table_name = Reply r ->
       error_status (status_code r) = true ->
       rows = [] /\ count_events is_diagnostic evs = 1%nat) /\
    (forall r, db2_api w table_name = Reply r ->
       error_status (status_code r) = false ->
       (length (split newline (strip (text r))) < 2)%nat ->
       rows = [] /\ count_events is_diagnostic evs = 0%nat).
Proof.
  rewrite fetch_db2_table_cases.
  destruct (db2_api w table_name) as [f|r] eqn:Hapi.
  - eexists _, _. split; [reflexivity|]. splits; try discriminate.
    intros _ _. split; reflexivity.
  - destruct (error_status (status_code r)) eqn:Hst.
    + eexists _, _. split; [reflexivity|]. splits; try discriminate.
      * intros r' [= <-] _. split; reflexivity.
      * intros r' [= <-] Hst'. congruence.
    + eexists _, _. split; [reflexivity|]. splits; try discriminate.
      * intros r' [= <-] Hst'. congruence.
      * intros r' [= <-] _ Hlen. split; [|reflexivity].
        unfold parse_table. apply Nat.ltb_lt in Hlen. now rewrite Hlen.
Qed.

Lemma fetch_db2_table_fails_soft_witness :
  exists rows evs,
    fetch_db2_table versionless_world "ItemBonusListGroupEntry" [] = (Ret rows, evs) /\
    rows = [] /\ count_events is_diagnostic evs = 0%nat.
Proof.
  destruct (fetch_db2_table_fails_soft versionless_world "ItemBonusListGroupEntry" [])
    as (rows & evs & Heq & _ & _ & Hshort).
  exists rows, evs. split; [exact Heq|].
  apply (Hshort _ eq_refl eq_refl). vm_compute. lia.
Defined.

(** C5 as stated fails on a short body: the empty list comes back with no
    warning printed by fetch_db2_table. *)
Lemma fetch_db2_table_warning_counterexample :
  (length (split newline (strip "ID,ItemBonusListGroupID")) < 2)%nat /\
  fetch_db2_table versionless_world "ItemBonusListGroupEntry" [] =
  (Ret [], [Print [Lit "Fetching "; Fmt (PStr "ItemBonusListGroupEntry"); Lit "..."];
            GetTable "ItemBonusListGroupEntry"]).
Proof. split; [vm_compute; lia|reflexivity]. Qed.

(** ** One empty table empties the mapping *)

(** C9.  When either fetched table is empty, build_track_mapping prints its
    warning and returns the empty mapping at once: the trace ends with the
    warning, and none of the counts of the scanning loops is printed. *)
Theorem build_track_mapping_needs_both_tables
    (w : world) (t t1 t2 : trace) (rows1 rows2 : list Row) :
  fetch_db2_table w "ItemBonusSeasonBonusListGroup" t = (Ret rows1, t1) ->
  fetch_db2_table w "ItemBonusListGroupEntry" t1 = (Ret rows2, t2) ->
  rows1 = [] \/ rows2 = [] ->
  build_track_mapping w t =
  (Ret PyDict.empty, t2 ++ [Print [Lit "Warning: Failed to fetch required tables"]]).
Proof.
  intros H1 H2 Hempty. unfold build_track_mapping.
  rewrite (bind_ret_eq _ _ _ _ _ H1), (bind_ret_eq _ _ _ _ _ H2).
  assert (Hcond : negb (list_truthy rows1) || negb (list_truthy rows2) = true).
  { destruct Hempty as [-> | ->]; [reflexivity|apply orb_true_r]. }
  rewrite Hcond. reflexivity.
Qed.

Lemma build_track_mapping_needs_both_tables_witness :
  exists t2,
    build_track_mapping one_table_world [] =
    (Ret PyDict.empty, t2 ++ [Print [Lit "Warning: Failed to fetch required tables"]]).
Proof.
  eexists.
  eapply (build_track_mapping_needs_both_tables one_table_world []).
  - reflexivity.
  - reflexivity.
  - right. reflexivity.
Defined.

(** ** Exit status *)




(** ** The empty version string *)

(** C10.  fetch_current_build returns the empty string, not [None], when the
    retail array is non-empty and its first entry has no version field.  Both
    callers treat the two alike: should_regenerate, once it has a marker to
    compare, decides against regeneration with the reason "could not fetch
    current build"; and main, when its own fetch gives either of them and the
    artifact is written, writes it with the build version "unknown". *)
Theorem empty_version_treated_as_absent :
  (forall w t r d entry rest,
     builds_api w (count_events is_GetBuilds t) = Reply r ->
     error_status (status_code r) = false ->
     json_body r = Some (PDict d) ->
     assoc "wow" d = Some (PList (PDict entry :: rest)) ->
     assoc "version" entry = None ->
     fetch_current_build w t = (Ret (PStr EmptyString), t ++ [GetBuilds])) /\
  (forall w t t1 t2 existing v,
     output_exists w = true ->
     get_existing_build w t = (Ret (Some existing), t1) ->
     str_truthy existing = true ->
     fetch_current_build w t1 = (Ret v, t2) ->
     v = PStr EmptyString \/ v = PNone ->
     should_regenerate w false t =
     (Ret (false, [Lit "could not fetch current build"]),
      t2 ++ [Print [Lit "Warning: Could not fetch current build version, skipping regeneration"]])) /\
  (forall w bv,
     In bv (written_versions (snd (run w))) ->
     exists t1 evs2 v,
       snd (run w) = t1 ++ GetBuilds :: evs2 /\
       count_events is_GetBuilds evs2 = 0%nat /\
       fetch_current_build w t1 = (Ret v, t1 ++ [GetBuilds]) /\
       bv = py_or v (PStr "unknown") /\
       (v = PStr EmptyString \/ v = PNone -> bv = PStr "unknown")) /\
  (forall w force reason t v t2,
     parse_args (argv w) false false = Ret force ->
     should_regenerate w force [] = (Ret (true, reason), t) ->
     fetch_current_build w
       (t ++ [Print ([Lit "Generating track data from wago.tools ("]
                     ++ reason ++ [Lit ")..."])]) = (Ret v, t2) ->
     v = PStr EmptyString \/ v = PNone ->
     template_present w = true ->
     output_writable w = true ->
     exists ids t4,
       run w =
       (Ret tt,
        t4 ++ [WriteArtifact ids (PStr "unknown");
               Print [Lit "Generated "; FmtPath "TrackData.lua"; Lit " (build ";
                      Fmt (PStr "unknown"); Lit ")"];
               Print [Lit "Done!"]]) /\
       written_versions t4 = []).
Proof.
  splits.
  - intros w t r d entry rest Hapi Hst Hjson Hwow Hver.
    unfold fetch_current_build, try_except, bind, requests_get_builds,
      raise_for_status, response_json.
    rewrite Hapi, Hst, Hjson. cbn [ret lift py_get]. rewrite Hwow.
    cbn. rewrite Hver. reflexivity.
  - intros w t t1 t2 existing v Hout Hex Htruthy Hfetch Hv.
    unfold should_regenerate. rewrite Hout. cbn [negb].
    rewrite (bind_ret_eq _ _ _ _ _ Hex), Htruthy. cbn [negb].
    rewrite (bind_ret_eq _ _ _ _ _ Hfetch).
    destruct Hv as [-> | ->]; reflexivity.
  - intros w bv Hin.
    destruct (main_shape w) as (o & tr & Hrun & _ & _ & _ & Hwr).
    rewrite Hrun in *. cbn [snd] in *.
    destruct (Hwr bv Hin) as (t1 & evs2 & v & Htr & Hg & Hf & Hbv).
    exists t1, evs2, v. splits; try assumption.
    intros [-> | ->]; exact Hbv.
  - intros w force reason t v t2 Hp Hsr Hfetch Hv Htpl Hwr.
    rewrite run_unfold, Hp, Hsr. cbn zeta. rewrite Hfetch.
    destruct (should_regenerate_shape w force [])
      as (o1 & evs1 & H1 & _ & _ & Hw1 & _).
    rewrite Hsr in H1. cbn [app] in H1. injection H1 as _ Ht. subst evs1.
    destruct (fetch_current_build_shape w
                (t ++ [Print ([Lit "Generating track data from wago.tools ("]
                              ++ reason ++ [Lit ")..."])]))
      as (o2 & H2 & _).
    rewrite Hfetch in H2. injection H2 as _ Ht2.
    destruct (build_track_mapping_shape w t2) as (mapping & evs3 & H3 & Hq3).
    rewrite H3, Htpl, Hwr. cbn [negb].
    destruct (quiet_counts _ Hq3) as (_ & _ & Hw3).
    assert (Hunknown : py_or v (PStr "unknown") = PStr "unknown")
      by (destruct Hv as [-> | ->]; reflexivity).
    rewrite Hunknown.
    eexists _, _. split; [reflexivity|].
    rewrite Ht2, !written_versions_app, Hw1, Hw3.
    now destruct (PyDict.truthy mapping).
Qed.

Lemma empty_version_treated_as_absent_witness :
  fetch_current_build versionless_world [] = (Ret (PStr EmptyString), [GetBuilds]) /\
  should_regenerate versionless_world false [] =
  (Ret (false, [Lit "could not fetch current build"]),
   [ReadArtifact; GetBuilds;
    Print [Lit "Warning: Could not fetch current build version, skipping regeneration"]]) /\
  (exists t1 evs2 v,
    snd (run versionless_world) = t1 ++ GetBuilds :: evs2 /\
    count_events is_GetBuilds evs2 = 0%nat /\
    fetch_current_build versionless_world t1 = (Ret v, t1 ++ [GetBuilds]) /\
    PStr "unknown" = py_or v (PStr "unknown") /\
    (v = PStr EmptyString \/ v = PNone -> PStr "unknown" = PStr "unknown")) /\
  (exists ids t4,
    run versionless_world =
    (Ret tt,
     t4 ++ [WriteArtifact ids (PStr "unknown");
            Print [Lit "Generated "; FmtPath "TrackData.lua"; Lit " (build ";
                   Fmt (PStr "unknown"); Lit ")"];
            Print [Lit "Done!"]]) /\
    written_versions t4 = []).
Proof.
  destruct empty_version_treated_as_absent as (HA & HB & HC & HD).
  split; [|split; [|split]].
  - exact (HA versionless_world [] _ _ _ _ eq_refl eq_refl eq_refl eq_refl eq_refl).
  - apply (HB versionless_world [] [ReadArtifact] [ReadArtifact; GetBuilds]
              "1.0" (PStr EmptyString)); try reflexivity. now left.
  - apply (HC versionless_world (PStr "unknown")). vm_compute. now left.
  - apply (HD versionless_world true [Lit "forced regeneration"] []
              (PStr EmptyString)
              [Print [Lit "Generating track data from wago.tools (";
                      Lit "forced regeneration"; Lit ")..."]; GetBuilds]);
      try reflexivity. now left.
Defined.

End RunClaims.

(** ** Dictionaries *)

Module DictFacts.
Section Facts.
Context {K V : Type} `{EqDecision K}.
Implicit Types (d : PyDict.dict K V) (k : K) (v : V).

Lemma get_set_eq d k v : PyDict.get k (PyDict.set k v d) = Some v.
Proof.
  induction d as [|[k' v'] d IH]; simpl.
  - now rewrite decide_True.
  - destruct (decide (k' = k)); simpl.
    + now rewrite decide_True.
    + now rewrite decide_False.
Qed.

Lemma get_set_ne d k k' v :
  k <> k' -> PyDict.get k' (PyDict.set k v d) = PyDict.get k' d.
Proof.
  intros Hne. induction d as [|[k0 v0] d IH]; simpl.
  - now rewrite decide_False.
  - destruct (decide (k0 = k)) as [->|]; simpl.
    + now rewrite !decide_False.
    + destruct (decide (k0 = k')); [reflexivity|exact IH].
Qed.

Lemma get_In d k v : PyDict.get k d = Some v -> In (k, v) d.
Proof.
  induction d as [|[k' v'] d IH]; simpl; [discriminate|].
  destruct (decide (k' = k)) as [->|]; [intros [= ->]; now left|].
  intros H. right. now apply IH.
Qed.

Lemma In_get d k v : PyDict.wf d -> In (k, v) d -> PyDict.get k d = Some v.
Proof.
  unfold PyDict.wf, PyDict.keys.
  induction d as [|[k' v'] d IH]; simpl; [easy|].
  intros Hnd [Heq | Hin].
  - injection Heq as -> ->. now rewrite decide_True.
  - apply NoDup_cons in Hnd as [Hnotin Hnd].
    destruct (decide (k' = k)) as [->|]; [|now apply IH].
    exfalso. apply Hnotin. apply list_elem_of_In.
    change k with (fst (k, v)). now apply in_map.
Qed.

(** Setting the keys of a list, all to one value. *)
Lemma get_fold_set_notin (l : list K) v d k :
  ~ In k l ->
  PyDict.get k (fold_left (fun acc x => PyDict.set x v acc) l d) = PyDict.get k d.
Proof.
  revert d. induction l as [|x l IH]; intros d Hnotin; simpl; [reflexivity|].
  rewrite IH by (intros Hin; apply Hnotin; now right).
  apply get_set_ne. intros ->. apply Hnotin. now left.
Qed.

Lemma get_fold_set_in (l : list K) v d k :
  In k l ->
  PyDict.get k (fold_left (fun acc x => PyDict.set x v acc) l d) = Some v.
Proof.
  induction l as [|x l IH] using rev_ind; [easy|].
  intros Hin. rewrite fold_left_app. simpl.
  destruct (decide (x = k)) as [->|Hne]; [apply get_set_eq|].
  rewrite get_set_ne by assumption. apply IH.
  apply in_app_or in Hin as [Hin | [Hx | []]]; [assumption|contradiction].
Qed.

End Facts.
End DictFacts.

(** ** The join of the two tables *)

Module Join.
Import DictFacts.

Lemma track_name_inv (t : Z) (n : string) :
  PyDict.get t TRACK_NAMES = Some n ->
  1 <= t <= 6 /\ n = canonical_name t /\ str_truthy n = true.
Proof.
  unfold TRACK_NAMES. simpl.
  repeat (destruct (decide _) as [<-|_]; [intros [= <-]; repeat split; lia|]).
  discriminate.
Qed.

Lemma track_name_valid (t : Z) :
  1 <= t <= 6 -> PyDict.get t TRACK_NAMES = Some (canonical_name t).
Proof.
  intros Ht.
  assert (Hcases : t = 1 \/ t = 2 \/ t = 3 \/ t = 4 \/ t = 5 \/ t = 6) by lia.
  destruct Hcases as [-> | [-> | [-> | [-> | [-> | ->]]]]]; reflexivity.
Qed.

Section WithBonuses.
Variable gb : PyDict.dict Z (list Z).

(** A group whose bonus list holds [b] binds it to the name of its track. *)
Lemma get_join_step_in acc g t b :
  1 <= t <= 6 -> In b (bonuses_of gb g) ->
  PyDict.get b (join_step gb acc (g, t)) = Some (canonical_name t).
Proof.
  intros Ht Hin. unfold join_step. rewrite (track_name_valid t Ht).
  destruct (track_name_inv _ _ (track_name_valid t Ht)) as (_ & _ & ->).
  cbn [negb]. now apply get_fold_set_in.
Qed.

(** Any other group leaves the binding of [b] as it was. *)
Lemma get_join_step_notin acc g t b :
  ~ In b (bonuses_of gb g) ->
  PyDict.get b (join_step gb acc (g, t)) = PyDict.get b acc.
Proof.
  intros Hnotin. unfold join_step.
  destruct (PyDict.get t TRACK_NAMES); [|reflexivity].
  destruct (negb (str_truthy s)); [reflexivity|].
  now apply get_fold_set_notin.
Qed.

Lemma get_join_fold_notin (l : list (Z * Z)) acc b :
  (forall g t, In (g, t) l -> ~ In b (bonuses_of gb g)) ->
  PyDict.get b (fold_left (join_step gb) l acc) = PyDict.get b acc.
Proof.
  revert acc. induction l as [|[g t] l IH]; intros acc Hl; simpl; [reflexivity|].
  rewrite IH by (intros g' t' Hin; apply (Hl g' t'); now right).
  apply get_join_step_notin. apply (Hl g t). now left.
Qed.

Lemma get_join_step_sound acc g t b n :
  PyDict.get b (join_step gb acc (g, t)) = Some n ->
  PyDict.get b acc = Some n \/
  (In b (bonuses_of gb g) /\ PyDict.get t TRACK_NAMES = Some n).
Proof.
  unfold join_step.
  destruct (PyDict.get t TRACK_NAMES) as [name|] eqn:Hname; [|now left].
  destruct (track_name_inv _ _ Hname) as (_ & _ & ->). cbn [negb].
  destruct (in_dec Z.eq_dec b (bonuses_of gb g)) as [Hb | Hb].
  - unfold bonuses_of in Hb. rewrite get_fold_set_in by assumption.
    intros [= <-]. now right.
  - unfold bonuses_of in Hb. rewrite get_fold_set_notin by assumption. now left.
Qed.

(** Every binding of the result comes from some group. *)
Lemma get_join_fold_sound (l : list (Z * Z)) acc b n :
  PyDict.get b (fold_left (join_step gb) l acc) = Some n ->
  PyDict.get b acc = Some n \/
  exists g t, In (g, t) l /\ In b (bonuses_of gb g) /\
              PyDict.get t TRACK_NAMES = Some n.
Proof.
  revert acc. induction l as [|[g t] l IH]; intros acc; simpl; [now left|].
  intros H. destruct (IH _ H) as [Hacc | (g' & t' & Hin & Hb & Hn)].
  - destruct (get_join_step_sound _ _ _ _ _ Hacc) as [Hacc' | [Hb Hn]];
      [now left|].
    right. exists g, t. split; [now left|]. now split.
  - right. exists g', t'. split; [now right|]. now split.
Qed.

(** The last group, in the order of the table, that lists [b] decides. *)
Lemma get_join_fold_last (pre post : list (Z * Z)) g t acc b :
  1 <= t <= 6 -> In b (bonuses_of gb g) ->
  (forall g' t', In (g', t') post -> ~ In b (bonuses_of gb g')) ->
  PyDict.get b (fold_left (join_step gb) (pre ++ (g, t) :: post) acc)
  = Some (canonical_name t).
Proof.
  intros Ht Hb Hpost. rewrite fold_left_app. simpl.
  rewrite get_join_fold_notin by assumption.
  now apply get_join_step_in.
Qed.

(** Among the groups that list [b] there is a last one. *)
Lemma last_group_with (l : list (Z * Z)) g t b :
  In (g, t) l -> In b (bonuses_of gb g) ->
  exists pre g1 t1 post,
    l = (pre ++ (g1, t1) :: post)%list /\ In b (bonuses_of gb g1) /\
    forall g' t', In (g', t') post -> ~ In b (bonuses_of gb g').
Proof.
  induction l as [|[g0 t0] l IH] using rev_ind; [easy|].
  intros Hin Hb.
  destruct (in_dec Z.eq_dec b (bonuses_of gb g0)) as [Hb0 | Hb0].
  - exists l, g0, t0, []. split; [reflexivity|]. split; [assumption|easy].
  - apply in_app_or in Hin as [Hin | [[= -> ->] | []]]; [|contradiction].
    destruct (IH Hin Hb) as (pre & g1 & t1 & post & -> & Hb1 & Hpost).
    exists pre, g1, t1, (post ++ [(g0, t0)])%list.
    split; [now rewrite <- app_assoc|]. split; [assumption|].
    intros g' t' Hin'. apply in_app_or in Hin' as [Hin' | [[= -> ->] | []]].
    + now apply (Hpost g' t').
    + assumption.
Qed.

(** Where the groups that list [b] agree on the track, [b] gets its name. *)
Lemma get_join_fold_agree (l : list (Z * Z)) g t acc b :
  (forall g' t', In (g', t') l -> 1 <= t' <= 6) ->
  In (g, t) l -> In b (bonuses_of gb g) ->
  (forall g' t', In (g', t') l -> In b (bonuses_of gb g') -> t' = t) ->
  PyDict.get b (fold_left (join_step gb) l acc) = Some (canonical_name t).
Proof.
  intros Hvalid Hin Hb Hagree.
  destruct (last_group_with l g t b Hin Hb)
    as (pre & g1 & t1 & post & -> & Hb1 & Hpost).
  assert (Hin1 : In (g1, t1) (pre ++ (g1, t1) :: post))
    by (apply in_or_app; right; now left).
  assert (t1 = t) as -> by (now apply (Hagree g1)).
  apply get_join_fold_last; [now apply (Hvalid g1)|assumption|assumption].
Qed.

End WithBonuses.
End Join.

(** C2, as amended.  For a group-to-track table with tracks in 1..6 and any
    group-to-bonuses table: every entry [b -> n] of the derived mapping comes
    from a group [g] with [group_to_track[g] = t], [b] in
    [group_to_bonuses[g]] and [n] the canonical name of [t]; conversely such a
    group yields the entry [b -> canonical-name(t)] when all groups listing [b]
    carry the same track, and in general the entry of [b] is that of the last
    group, in the insertion order of group_to_track, that lists [b].  A group
    absent from group_to_bonuses contributes no entries.  The inputs
    [{10: 2, 20: 6}] and [{10: [100, 101], 20: [200]}] yield exactly
    [{100: "adventurer", 101: "adventurer", 200: "myth"}]. *)
Theorem join_tracks_spec
    (group_to_track : PyDict.dict Z Z) (group_to_bonuses : PyDict.dict Z (list Z)) :
  PyDict.wf group_to_track ->
  (forall g t, PyDict.get g group_to_track = Some t -> 1 <= t <= 6) ->
  (forall b n,
     PyDict.get b (join_tracks group_to_track group_to_bonuses) = Some n ->
     exists g t, PyDict.get g group_to_track = Some t /\
                 In b (bonuses_of group_to_bonuses g) /\
                 n = canonical_name t) /\
  (forall b g t,
     PyDict.get g group_to_track = Some t ->
     In b (bonuses_of group_to_bonuses g) ->
     (forall g' t', PyDict.get g' group_to_track = Some t' ->
                    In b (bonuses_of group_to_bonuses g') -> t' = t) ->
     PyDict.get b (join_tracks group_to_track group_to_bonuses)
     = Some (canonical_name t)) /\
  (forall b pre g t post,
     group_to_track = (pre ++ (g, t) :: post)%list ->
     In b (bonuses_of group_to_bonuses g) ->
     (forall g' t', In (g', t') post -> ~ In b (bonuses_of group_to_bonuses g')) ->
     PyDict.get b (join_tracks group_to_track group_to_bonuses)
     = Some (canonical_name t)) /\
  (forall g t acc,
     PyDict.get g group_to_bonuses = None ->
     join_step group_to_bonuses acc (g, t) = acc) /\
  join_tracks [(10, 2); (20, 6)] [(10, [100; 101]); (20, [200])]
  = [(100, "adventurer"); (101, "adventurer"); (200, "myth")].
Proof.
  intros Hwf Hvalid.
  assert (HvalidIn : forall g t, In (g, t) group_to_track -> 1 <= t <= 6).
  { intros g t Hin. apply (Hvalid g). now apply DictFacts.In_get. }
  split; [|split; [|split; [|split]]].
  - intros b n Hget. unfold join_tracks in Hget.
    destruct (Join.get_join_fold_sound _ _ _ _ _ Hget)
      as [Hempty | (g & t & Hin & Hb & Hn)]; [discriminate|].
    exists g, t. split; [now apply DictFacts.In_get|]. split; [assumption|].
    now destruct (Join.track_name_inv _ _ Hn) as (_ & -> & _).
  - intros b g t Hg Hb Hagree. unfold join_tracks.
    apply (Join.get_join_fold_agree group_to_bonuses group_to_track g);
      [assumption|now apply DictFacts.get_In|assumption|].
    intros g' t' Hin Hb'. apply (Hagree g'); [now apply DictFacts.In_get|assumption].
  - intros b pre g t post -> Hb Hpost. unfold join_tracks.
    apply Join.get_join_fold_last; [|assumption|assumption].
    apply (HvalidIn g). apply in_or_app. right. now left.
  - intros g t acc Hnone. unfold join_step.
    destruct (PyDict.get t TRACK_NAMES); [|reflexivity].
    destruct (negb (str_truthy s)); [reflexivity|].
    now rewrite Hnone.
  - reflexivity.
Qed.

Lemma join_tracks_spec_witness :
  PyDict.get 100 (join_tracks [(10, 2); (20, 6)] [(10, [100; 101]); (20, [200])])
  = Some "adventurer".
Proof.
  assert (Hwf : PyDict.wf (V := Z) [(10, 2); (20, 6)]).
  { unfold PyDict.wf. simpl.
    constructor; [rewrite list_elem_of_In; simpl; intuition lia|].
    constructor; [rewrite list_elem_of_In; simpl; tauto|constructor]. }
  assert (Hvalid : forall g t,
            PyDict.get g [(10, 2); (20, 6)] = Some t -> 1 <= t <= 6).
  { intros g t. simpl. repeat (destruct (decide _); [intros [= <-]; lia|]).
    discriminate. }
  destruct (join_tracks_spec [(10, 2); (20, 6)] [(10, [100; 101]); (20, [200])]
              Hwf Hvalid) as (_ & Hagree & _).
  apply (Hagree 100 10 2).
  - reflexivity.
  - simpl. now left.
  - intros g' t'. simpl.
    repeat (destruct (decide _) as [<-|_]; [intros [= <-]; simpl; intuition lia|]).
    discriminate.
Defined.

(** C2 as stated fails when two groups with different tracks list the same
    bonus ID: group 1 has track 1 and lists 100, yet 100 maps to the name of
    track 2, the track of the later group. *)
Lemma join_tracks_conflict_counterexample :
  PyDict.get 1 [(1, 1); (2, 2)] = Some 1 /\
  In 100 (bonuses_of [(1, [100]); (2, [100])] 1) /\
  PyDict.get 100 (join_tracks [(1, 1); (2, 2)] [(1, [100]); (2, [100])])
  = Some "adventurer" /\
  PyDict.get 100 (join_tracks [(1, 1); (2, 2)] [(1, [100]); (2, [100])])
  <> Some (canonical_name 1).
Proof. repeat split; try reflexivity; [now left|discriminate]. Qed.

(** ** The group-to-track table *)

Module Tracks.
Import DictFacts.

Lemma mem_track_names (tnum : Z) :
  PyDict.mem tnum TRACK_NAMES = true <-> 1 <= tnum <= 6.
Proof.
  unfold PyDict.mem. split.
  - destruct (PyDict.get tnum TRACK_NAMES) as [n|] eqn:Hn; [|discriminate].
    intros _. now destruct (Join.track_name_inv _ _ Hn).
  - intros Ht. now rewrite (Join.track_name_valid tnum Ht).
Qed.

Lemma track_step_valid d row gid tnum :
  valid_track_row row gid tnum -> track_step d row = PyDict.set gid tnum d.
Proof.
  intros (Hg & Ht & Hgid & Htnum & Hrange). unfold track_step.
  rewrite Hg, Ht, Hgid, Htnum. cbn [andb].
  now rewrite (proj2 (mem_track_names tnum) Hrange).
Qed.

(** A row either leaves the table as it is or is valid and recorded. *)
Lemma track_step_cases d row :
  track_step d row = d \/
  exists gid tnum,
    valid_track_row row gid tnum /\ track_step d row = PyDict.set gid tnum d.
Proof.
  unfold track_step, valid_track_row.
  destruct (str_truthy (row_get "ItemBonusListGroupID" row)) eqn:Hg; [|now left].
  destruct (str_truthy (row_get "Field_10_1_0_48898_002" row)) eqn:Ht; [|now left].
  cbn [andb].
  destruct (py_int (row_get "ItemBonusListGroupID" row)) as [gid|]; [|now left].
  destruct (py_int (row_get "Field_10_1_0_48898_002" row)) as [tnum|]; [|now left].
  destruct (PyDict.mem tnum TRACK_NAMES) eqn:Hmem; [|now left].
  right. exists gid, tnum. apply mem_track_names in Hmem. repeat split; lia.
Qed.

Lemma valid_track_row_fun row gid tnum gid' tnum' :
  valid_track_row row gid tnum -> valid_track_row row gid' tnum' ->
  gid = gid' /\ tnum = tnum'.
Proof.
  intros (_ & _ & Hg & Ht & _) (_ & _ & Hg' & Ht' & _).
  rewrite Hg in Hg'. rewrite Ht in Ht'. split; congruence.
Qed.

(** Rows that are not valid rows of a group do not touch its entry. *)
Lemma get_fold_track_other (rows : list Row) d gid :
  (forall r t, In r rows -> ~ valid_track_row r gid t) ->
  PyDict.get gid (fold_left track_step rows d) = PyDict.get gid d.
Proof.
  revert d. induction rows as [|r rows IH]; intros d Hrows; simpl; [reflexivity|].
  rewrite IH by (intros r' t' Hin; apply Hrows; now right).
  destruct (track_step_cases d r) as [-> | (g & t & Hvalid & ->)]; [reflexivity|].
  apply get_set_ne. intros ->. apply (Hrows r t); [now left|assumption].
Qed.

(** Every entry of the table was put there by a valid row. *)
Lemma get_fold_track_sound (rows : list Row) d gid tnum :
  PyDict.get gid (fold_left track_step rows d) = Some tnum ->
  PyDict.get gid d = Some tnum \/
  exists row, In row rows /\ valid_track_row row gid tnum.
Proof.
  revert d. induction rows as [|r rows IH]; intros d; simpl; [now left|].
  intros H. destruct (IH _ H) as [Hd | (row & Hin & Hvalid)].
  - destruct (track_step_cases d r) as [Heq | (g & t & Hvalid & Heq)];
      rewrite Heq in Hd; [now left|].
    destruct (decide (g = gid)) as [->|Hne].
    + rewrite get_set_eq in Hd. injection Hd as ->.
      right. exists r. split; [now left|assumption].
    + rewrite get_set_ne in Hd by assumption. now left.
  - right. exists row. split; [now right|assumption].
Qed.

End Tracks.

(** C7, as amended.  A row whose group-id and track-number fields are present,
    non-empty and numeric, with the track number in 1..6, is recorded under its
    group id with that number, whose name in TRACK_NAMES is the canonical one;
    the entry stays in the finished table unless a later valid row carries the
    same group id.  Any other row leaves the table unchanged, and no row
    raises.  Every entry of the finished table has a track number in 1..6 and
    comes from a valid row. *)
Theorem track_rows_recorded :
  (forall (d : PyDict.dict Z Z) row gid tnum,
     valid_track_row row gid tnum ->
     track_step d row = PyDict.set gid tnum d /\
     PyDict.get gid (track_step d row) = Some tnum /\
     PyDict.get tnum TRACK_NAMES = Some (canonical_name tnum)) /\
  (forall (d : PyDict.dict Z Z) row,
     (forall gid tnum, ~ valid_track_row row gid tnum) ->
     track_step d row = d) /\
  (forall pre row post gid tnum,
     valid_track_row row gid tnum ->
     (forall r t, In r post -> ~ valid_track_row r gid t) ->
     PyDict.get gid (build_group_to_track (pre ++ row :: post)%list) = Some tnum) /\
  (forall rows gid tnum,
     PyDict.get gid (build_group_to_track rows) = Some tnum ->
     1 <= tnum <= 6 /\
     exists row, In row rows /\ valid_track_row row gid tnum).
Proof.
  split; [|split; [|split]].
  - intros d row gid tnum Hvalid.
    rewrite (Tracks.track_step_valid d row gid tnum Hvalid).
    split; [reflexivity|]. split; [apply DictFacts.get_set_eq|].
    apply Join.track_name_valid. apply Hvalid.
  - intros d row Hinvalid.
    destruct (Tracks.track_step_cases d row) as [H | (g & t & Hvalid & _)];
      [assumption|]. now destruct (Hinvalid g t).
  - intros pre row post gid tnum Hvalid Hpost.
    unfold build_group_to_track. rewrite fold_left_app. simpl.
    rewrite Tracks.get_fold_track_other by assumption.
    rewrite (Tracks.track_step_valid _ row gid tnum Hvalid).
    apply DictFacts.get_set_eq.
  - intros rows gid tnum Hget. unfold build_group_to_track in Hget.
    destruct (Tracks.get_fold_track_sound _ _ _ _ Hget)
      as [Hempty | (row & Hin & Hvalid)]; [discriminate|].
    split; [apply Hvalid|]. exists row. now split.
Qed.

Lemma track_rows_recorded_witness :
  PyDict.get 10 (build_group_to_track duplicate_group_rows) = Some 2.
Proof.
  destruct track_rows_recorded as (_ & _ & Hlast & _).
  apply (Hlast [[("ItemBonusListGroupID", "10"); ("Field_10_1_0_48898_002", "1")]]
               [("ItemBonusListGroupID", "10"); ("Field_10_1_0_48898_002", "2")]
               [] 10 2).
  - unfold valid_track_row. repeat split; try reflexivity; lia.
  - intros r t [].
Defined.

(** C7 as stated fails when two valid rows carry the same group id: the first
    row gives group 10 the track 1, and the table ends with track 2 for it. *)
Lemma track_rows_recorded_counterexample :
  In [("ItemBonusListGroupID", "10"); ("Field_10_1_0_48898_002", "1")]
     duplicate_group_rows /\
  valid_track_row
    [("ItemBonusListGroupID", "10"); ("Field_10_1_0_48898_002", "1")] 10 1 /\
  PyDict.get 10 (build_group_to_track duplicate_group_rows) = Some 2 /\
  PyDict.get 2 TRACK_NAMES <> Some (canonical_name 1).
Proof.
  split; [now left|]. split; [|split; [reflexivity|discriminate]].
  unfold valid_track_row. repeat split; try reflexivity; lia.
Qed.

(** ** Rows of a fetched table *)

Module Csv.
Local Open Scope list_scope.

(** The loop over [enumerate(headers)] from index [i] on pairs each header
    with the value at its position, as long as there is one. *)
Lemma fold_row_step (headers values : list string) (i : nat) (acc : Row) :
  fold_left (row_step values) (enumerate_from i headers) acc =
  fold_left (fun row hv => PyDict.set (fst hv) (snd hv) row)
            (combine (map strip headers) (map strip (drop i values))) acc.
Proof.
  revert i acc. induction headers as [|h hs IH]; intros i acc; [reflexivity|].
  cbn [enumerate_from fold_left row_step map].
  destruct (values !! i) as [v|] eqn:Hv.
  - assert (Hlt : (i < length values)%nat) by (eapply lookup_lt_Some; eassumption).
    apply Nat.ltb_lt in Hlt as Hltb. rewrite Hltb.
    rewrite (drop_S _ _ _ Hv). cbn [map combine fold_left fst snd].
    rewrite IH. now rewrite (nth_lookup_Some _ _ EmptyString _ Hv).
  - apply lookup_ge_None in Hv.
    assert (Hltb : (i <? length values)%nat = false) by (apply Nat.ltb_ge; lia).
    rewrite Hltb, IH.
    rewrite !drop_ge by lia. cbn [map]. now destruct (map strip hs).
Qed.

Lemma build_row_zip (headers values : list string) :
  build_row headers values = zip_row headers values.
Proof.
  unfold build_row, zip_row, enumerate. rewrite fold_row_step, drop_0.
  reflexivity.
Qed.

Lemma fold_rows_step (headers : list string) (rest : list string) (acc : list Row) :
  fold_left (rows_step headers) rest acc =
  acc ++ map (fun line => zip_row headers (split comma line))
             (filter (fun line => str_truthy (strip line) = true) rest).
Proof.
  revert acc. induction rest as [|line rest IH]; intros acc; simpl.
  - now rewrite app_nil_r.
  - rewrite IH. unfold rows_step.
    destruct (str_truthy (strip line)) eqn:Hline; cbn [negb].
    + rewrite filter_cons_True by assumption. simpl.
      now rewrite build_row_zip, <- app_assoc.
    + rewrite filter_cons_False by congruence. reflexivity.
Qed.

(** A zipped row binds a name only to a value at the position of a header
    of that name. *)
Lemma zip_row_lookup (headers values : list string) (k x : string) :
  PyDict.get k (zip_row headers values) = Some x ->
  exists i h v,
    headers !! i = Some h /\ values !! i = Some v /\
    k = strip h /\ x = strip v.
Proof.
  unfold zip_row.
  assert (Hgen : forall (pairs : list (string * string)) (acc : Row),
    PyDict.get k (fold_left (fun row hv => PyDict.set (fst hv) (snd hv) row) pairs acc)
      = Some x ->
    PyDict.get k acc = Some x \/ In (k, x) pairs).
  { induction pairs as [|[h v] pairs IH]; intros acc; simpl; [now left|].
    intros H. destruct (IH _ H) as [Hacc | Hin]; [|now right; right].
    destruct (decide (h = k)) as [->|Hne].
    - rewrite DictFacts.get_set_eq in Hacc. injection Hacc as ->. right. now left.
    - rewrite DictFacts.get_set_ne in Hacc by assumption. now left. }
  intros H. destruct (Hgen _ _ H) as [Hempty | Hin]; [discriminate|].
  apply list_elem_of_In, list_elem_of_lookup in Hin as [i Hi].
  change (combine (map strip headers) (map strip values))
    with (zip (strip <$> headers) (strip <$> values)) in Hi.
  apply lookup_zip_with_Some in Hi as (h' & v' & Heq & Hh & Hv).
  injection Heq as -> ->.
  rewrite list_lookup_fmap in Hh, Hv.
  destruct (headers !! i) as [h|] eqn:Hh'; [|discriminate].
  destruct (values !! i) as [v|] eqn:Hv'; [|discriminate].
  simpl in Hh, Hv. injection Hh as <-. injection Hv as <-.
  exists i, h, v. auto.
Qed.

Lemma set_length (row : Row) (k v : string) :
  (length (PyDict.set k v row) <= S (length row))%nat.
Proof.
  induction row as [|[k' v'] row IH]; simpl; [lia|].
  destruct (decide (k' = k)); simpl; lia.
Qed.

(** No padding: a row has no more entries than header and values have
    positions in common. *)
Lemma zip_row_length (headers values : list string) :
  (length (zip_row headers values) <= Nat.min (length headers) (length values))%nat.
Proof.
  unfold zip_row.
  assert (Hgen : forall (pairs : list (string * string)) (acc : Row),
    (length (fold_left (fun row hv => PyDict.set (fst hv) (snd hv) row) pairs acc)
     <= length acc + length pairs)%nat).
  { induction pairs as [|hv pairs IH]; intros acc; simpl; [lia|].
    specialize (IH (PyDict.set (fst hv) (snd hv) acc)).
    pose proof (set_length acc (fst hv) (snd hv)). lia. }
  specialize (Hgen (combine (map strip headers) (map strip values)) PyDict.empty).
  rewrite length_combine, !length_map in Hgen. exact Hgen.
Qed.

End Csv.

(** C8.  For a body of at least two lines (after the body is trimmed),
    parse_table is the table of the specification: the first line, split at
    commas, gives the header names; blank lines after it are skipped; every
    other line is split at commas and zipped by position with the header, names
    and values trimmed.  A row therefore binds a name only to the value at the
    position of a header of that name, and has no more entries than header and
    values have positions in common: surplus values are dropped and surplus
    headers stay absent. *)
Theorem parse_table_zips (body : string) :
  (2 <= length (split newline (strip body)))%nat ->
  parse_table body = parse_table_spec body /\
  (forall row, In row (parse_table body) ->
     exists first line rest,
       split newline (strip body) = first :: rest /\ In line rest /\
       str_truthy (strip line) = true /\
       row = zip_row (split comma first) (split comma line) /\
       (length row <= Nat.min (length (split comma first))
                              (length (split comma line)))%nat /\
       forall k x, PyDict.get k row = Some x ->
         exists i h v,
           split comma first !! i = Some h /\ split comma line !! i = Some v /\
           k = strip h /\ x = strip v).
Proof.
  intros Hlen.
  assert (Heq : parse_table body = parse_table_spec body).
  { unfold parse_table, parse_table_spec.
    apply Nat.ltb_ge in Hlen as Hltb. rewrite Hltb.
    destruct (split newline (strip body)) as [|first rest]; [reflexivity|].
    now rewrite Csv.fold_rows_step. }
  split; [exact Heq|].
  intros row Hin. rewrite Heq in Hin. unfold parse_table_spec in Hin.
  destruct (split newline (strip body)) as [|first rest]; [easy|].
  apply in_map_iff in Hin as (line & <- & Hline).
  apply list_elem_of_In, list_elem_of_filter in Hline as [Htruthy Hrest].
  exists first, line, rest.
  split; [reflexivity|]. split; [now apply list_elem_of_In|].
  split; [assumption|]. split; [reflexivity|].
  split; [apply Csv.zip_row_length|].
  intros k x. apply Csv.zip_row_lookup.
Qed.

Lemma parse_table_zips_witness :
  parse_table "a, b ,c
1,2

3,4,5,6
" = [[("a", "1"); ("b", "2")]; [("a", "3"); ("b", "4"); ("c", "5")]].
Proof.
  etransitivity.
  - apply (parse_table_zips "a, b ,c
1,2

3,4,5,6
"). vm_compute. lia.
  - reflexivity.
Defined.

(** * Further properties *)

(** ** Trimming *)

Module Trim.

Lemma rstrip_idem s : rstrip (rstrip s) = rstrip s.
Proof.
  induction s as [|c s IH]; [reflexivity|].
  simpl. destruct (py_isspace c && is_empty (rstrip s)) eqn:Hc; [reflexivity|].
  simpl. now rewrite IH, Hc.
Qed.

(** Trimming the right end leaves a left end that is already trimmed alone. *)
Lemma lstrip_rstrip_lstrip s : lstrip (rstrip (lstrip s)) = rstrip (lstrip s).
Proof.
  induction s as [|c s IH]; [reflexivity|].
  simpl. destruct (py_isspace c) eqn:Hc; [exact IH|].
  simpl. rewrite Hc. simpl. now rewrite Hc.
Qed.

Lemma strip_idem s : strip (strip s) = strip s.
Proof. unfold strip. now rewrite lstrip_rstrip_lstrip, rstrip_idem. Qed.

Lemma contains_char_lstrip c s :
  contains_char c s = false -> contains_char c (lstrip s) = false.
Proof.
  induction s as [|a s IH]; [reflexivity|].
  simpl. intros H. apply orb_false_iff in H as [Ha Hs].
  destruct (py_isspace a); [now apply IH|]. simpl. now rewrite Ha, Hs.
Qed.

Lemma contains_char_rstrip c s :
  contains_char c s = false -> contains_char c (rstrip s) = false.
Proof.
  induction s as [|a s IH]; [reflexivity|].
  simpl. intros H. apply orb_false_iff in H as [Ha Hs].
  destruct (py_isspace a && is_empty (rstrip s)); [reflexivity|].
  simpl. now rewrite Ha, IH.
Qed.

Lemma contains_char_strip c s :
  contains_char c s = false -> contains_char c (strip s) = false.
Proof. intros H. unfold strip. now apply contains_char_rstrip, contains_char_lstrip. Qed.

(** No field of a split holds the separator. *)
Lemma split_fields sep s f :
  In f (split sep s) -> contains_char sep f = false.
Proof.
  revert f. induction s as [|c s IH]; intros f; simpl.
  - intros [<- | []]. reflexivity.
  - destruct (Ascii.eqb c sep) eqn:Hc.
    + intros [<- | Hin]; [reflexivity|now apply IH].
    + pose proof (StrFacts.split_nonempty sep s) as Hne.
      destruct (split sep s) as [|f0 fs]; [contradiction|].
      intros [<- | Hin].
      * simpl. rewrite Hc. apply IH. now left.
      * apply IH. now right.
Qed.

Lemma first_marker_in lines g :
  first_marker lines = Some g ->
  exists line, In line lines /\ match_marker_line line = Some g.
Proof.
  induction lines as [|l ls IH]; simpl; [discriminate|].
  destruct (match_marker_line l) as [g'|] eqn:Hl.
  - intros [= ->]. exists l. split; [now left|assumption].
  - intros H. destruct (IH H) as (line & Hin & Hm). exists line. split; [now right|assumption].
Qed.

Lemma strip_prefix_app p s rest :
  strip_prefix p s = Some rest -> s = p ++ rest.
Proof.
  revert s. induction p as [|a p IH]; intros s; simpl.
  - now intros [= ->].
  - destruct s as [|b s]; [discriminate|].
    destruct (Ascii.eqb a b) eqn:Hab; [|discriminate].
    apply Ascii.eqb_eq in Hab as ->. intros H. now rewrite (IH _ H).
Qed.

(** What read_text returns holds no carriage return. *)
Lemma newlines_from_no_cr b s :
  contains_char carriage_return (newlines_from b s) = false.
Proof.
  revert b. induction s as [|c s IH]; intros b; [reflexivity|].
  cbn [newlines_from].
  destruct (Ascii.eqb c carriage_return) eqn:Hcr; [simpl; apply IH|].
  destruct (Ascii.eqb c newline) eqn:Hlf.
  - destruct b; [apply IH|simpl; apply IH].
  - simpl. rewrite Hcr. apply IH.
Qed.

(** A field of a split holds no character that the whole does not hold. *)
Lemma split_fields_keep c sep s f :
  contains_char c s = false -> In f (split sep s) -> contains_char c f = false.
Proof.
  revert f. induction s as [|a s IH]; intros f Hs; simpl.
  - intros [<- | []]. reflexivity.
  - simpl in Hs. apply orb_false_iff in Hs as [Ha Hs].
    destruct (Ascii.eqb a sep).
    + intros [<- | Hin]; [reflexivity|now apply IH].
    + pose proof (StrFacts.split_nonempty sep s) as Hne.
      destruct (split sep s) as [|f0 fs]; [contradiction|].
      intros [<- | Hin].
      * simpl. rewrite Ha. apply IH; [assumption|now left].
      * apply IH; [assumption|now right].
Qed.

End Trim.

(** ** The marker read back *)

(** X1.  Without a previous artifact get_existing_build returns nothing and
    does not read; an artifact that cannot be read gives nothing either.  The
    one exception that escapes it is the UnicodeDecodeError of an artifact
    that does not decode.  A marker it returns is the trimmed remainder of a
    line, of the text as read_text returns it, that starts with [-- Build: ]:
    it has no whitespace at either end and holds no line break. *)
Theorem get_existing_build_marker (w : world) (t : trace) :
  (output_file w = Absent -> get_existing_build w t = (Ret None, t)) /\
  (output_file w = Unreadable ->
   get_existing_build w t = (Ret None, (t ++ [ReadArtifact])%list)) /\
  (output_file w = Undecodable ->
   get_existing_build w t = (Raise UnicodeDecodeError, (t ++ [ReadArtifact])%list)) /\
  (forall o t', get_existing_build w t = (o, t') ->
     (forall e, o = Raise e ->
        e = UnicodeDecodeError /\ output_file w = Undecodable) /\
     (forall b, o = Ret (Some b) ->
        trimmed b /\ contains_char newline b = false /\
        contains_char carriage_return b = false /\
        exists content line rest,
          output_file w = Present content /\
          In line (split newline (universal_newlines content)) /\
          line = marker_prefix ++ rest /\ b = strip rest)).
Proof.
  split; [|split; [|split]].
  - intros H. unfold get_existing_build, output_exists. now rewrite H.
  - intros H. unfold get_existing_build, output_exists, try_except, read_text,
      bind, emit. now rewrite H.
  - intros H. unfold get_existing_build, output_exists, try_except, read_text,
      bind, emit. now rewrite H.
  - intros o t'. unfold get_existing_build, output_exists, try_except, read_text,
      bind, emit.
    destruct (output_file w) as [| | |content]; cbn [negb ret raise is_OSError].
    + intros [= <- <-]. split; discriminate.
    + intros [= <- <-]. split; discriminate.
    + intros [= <- <-]. split; [|discriminate]. intros e [= <-]. now split.
    + destruct (re_search_build (universal_newlines content)) as [group1|] eqn:Hsearch.
      * intros [= <- <-]. split; [discriminate|].
        intros b [= <-].
        destruct (Trim.first_marker_in _ _ Hsearch) as (line & Hin & Hm).
        unfold match_marker_line in Hm.
        destruct (strip_prefix marker_prefix line) as [rest|] eqn:Hp; [|discriminate].
        destruct (is_empty rest); [discriminate|]. injection Hm as ->.
        apply Trim.strip_prefix_app in Hp.
        split; [apply Trim.strip_idem|]. split; [|split].
        -- apply Trim.contains_char_strip.
           pose proof (Trim.split_fields _ _ _ Hin) as Hnl.
           rewrite Hp, StrFacts.contains_char_app in Hnl.
           now apply orb_false_iff in Hnl as [_ Hnl].
        -- apply Trim.contains_char_strip.
           pose proof (Trim.split_fields_keep carriage_return _ _ _
                         (Trim.newlines_from_no_cr false content) Hin) as Hcr.
           rewrite Hp, StrFacts.contains_char_app in Hcr.
           now apply orb_false_iff in Hcr as [_ Hcr].
        -- exists content, line, group1. repeat split; assumption.
      * intros [= <- <-]. split; discriminate.
Qed.

Lemma get_existing_build_marker_witness :
  trimmed "1.0" /\ contains_char newline "1.0" = false /\
  contains_char carriage_return "1.0" = false /\
  exists content line rest,
    output_file stale_world = Present content /\
    In line (split newline (universal_newlines content)) /\
    line = marker_prefix ++ rest /\ "1.0" = strip rest.
Proof.
  destruct (get_existing_build_marker stale_world []) as (_ & _ & _ & H).
  destruct (H _ _ eq_refl) as [_ Hb].
  apply Hb. reflexivity.
Defined.

(** ** The builds request *)

Module BuildsRequest.
Import Effects.
Local Open Scope list_scope.

(** What the first retail entry gives. *)
Lemma fetch_entry (w : world) (t : trace) (r : response)
    (d entry : list (string * pyval)) (rest : list pyval) :
  builds_api w (count_events is_GetBuilds t) = Reply r ->
  error_status (status_code r) = false ->
  json_body r = Some (PDict d) ->
  assoc "wow" d = Some (PList (PDict entry :: rest)) ->
  fetch_current_build w t =
  (Ret (match assoc "version" entry with
        | Some version => version
        | None => PStr EmptyString
        end), t ++ [GetBuilds]).
Proof.
  intros Hapi Hst Hjson Hwow.
  unfold fetch_current_build, try_except, bind, requests_get_builds,
    raise_for_status, response_json.
  rewrite Hapi, Hst, Hjson. cbn [ret lift py_get]. rewrite Hwow.
  cbn. now destruct (assoc "version" entry).
Qed.





(** X4.  From a document whose ["wow"] list starts with an object,
    fetch_current_build returns the value of that object's ["version"], or the
    empty string when it has none; the other entries of the list and the other
    channels of the document play no part. *)
Theorem fetch_current_build_first_entry
    (w : world) (t : trace) (r : response)
    (d entry : list (string * pyval)) (rest : list pyval) :
  builds_api w (count_events is_GetBuilds t) = Reply r ->
  error_status (status_code r) = false ->
  json_body r = Some (PDict d) ->
  assoc "wow" d = Some (PList (PDict entry :: rest)) ->
  fetch_current_build w t =
  (Ret (match assoc "version" entry with
        | Some version => version
        | None => PStr EmptyString
        end), t ++ [GetBuilds]).
Proof.
  intros Hapi Hst Hjson Hwow.
  unfold fetch_current_build, try_except, bind, requests_get_builds,
    raise_for_status, response_json.
  rewrite Hapi, Hst, Hjson. cbn [ret lift py_get]. rewrite Hwow.
  cbn. now destruct (assoc "version" entry).
Qed.

Lemma fetch_current_build_first_entry_witness :
  fetch_current_build stale_world [] = (Ret (PStr "2.0"), [GetBuilds]).
Proof.
  exact (fetch_current_build_first_entry stale_world [] _ _ _ _
           eq_refl eq_refl eq_refl eq_refl).
Defined.

End BuildsRequest.

(** ** Whole runs *)

Module RunFacts.
Import Effects.
Local Open Scope list_scope.

Lemma table_requests_app (t1 t2 : trace) :
  table_requests (t1 ++ t2) = table_requests t1 ++ table_requests t2.
Proof.
  induction t1 as [|e t1 IH]; [reflexivity|].
  destruct e; simpl; now rewrite IH.
Qed.

(** The staleness check requests no table. *)
Lemma should_regenerate_no_tables (w : world) (force : bool) (t : trace) :
  table_requests (snd (should_regenerate w force t)) = table_requests t.
Proof.
  unfold should_regenerate.
  destruct force; [reflexivity|].
  destruct (output_exists w); cbn [negb]; [|reflexivity].
  destruct (get_existing_build_shape w t) as (oex & evs1 & Hex & Hevs1 & _).
  assert (Hev : table_requests evs1 = []).
  { destruct Hevs1 as [-> | ->]; reflexivity. }
  assert (Ht1 : table_requests (t ++ evs1) = table_requests t).
  { now rewrite table_requests_app, Hev, app_nil_r. }
  destruct oex as [existing|e].
  2:{ now rewrite (bind_raise_eq _ _ _ _ _ Hex). }
  rewrite (bind_ret_eq _ _ _ _ _ Hex).
  destruct existing as [existing|]; [|exact Ht1].
  destruct (str_truthy existing); cbn [negb]; [|exact Ht1].
  destruct (fetch_current_build_shape w (t ++ evs1)) as (o & Hf & _).
  destruct o as [current|e].
  - rewrite (bind_ret_eq _ _ _ _ _ Hf).
    destruct (py_truthy current); cbn [negb].
    + destruct (str_ne existing current); unfold ret; cbn [snd];
        rewrite !table_requests_app, Hev; simpl; now rewrite !app_nil_r.
    + unfold bind, print, emit, ret. cbn [snd].
      rewrite !table_requests_app, Hev. simpl. now rewrite !app_nil_r.
  - rewrite (bind_raise_eq _ _ _ _ _ Hf). cbn [snd].
    rewrite !table_requests_app, Hev. simpl. now rewrite !app_nil_r.
Qed.

(** The tables build_track_mapping requests: both, once each, in this order,
    whatever the replies. *)
Lemma build_track_mapping_requests (w : world) (t : trace) :
  table_requests (snd (build_track_mapping w t)) =
  table_requests t ++ ["ItemBonusSeasonBonusListGroup"; "ItemBonusListGroupEntry"].
Proof.
  unfold build_track_mapping.
  assert (Hone : forall name t0,
    exists rows evs, fetch_db2_table w name t0 = (Ret rows, t0 ++ evs) /\
                     table_requests evs = [name]).
  { intros name t0. rewrite fetch_db2_table_cases.
    destruct (db2_api w name) as [f|r];
      [|destruct (error_status (status_code r))];
      eexists _, _; split; reflexivity. }
  destruct (Hone "ItemBonusSeasonBonusListGroup" t) as (rows1 & evs1 & H1 & Hr1).
  destruct (Hone "ItemBonusListGroupEntry" (t ++ evs1)) as (rows2 & evs2 & H2 & Hr2).
  rewrite (bind_ret_eq _ _ _ _ _ H1), (bind_ret_eq _ _ _ _ _ H2).
  destruct (negb (list_truthy rows1) || negb (list_truthy rows2));
    unfold bind, print, emit, ret; cbn [snd];
    rewrite !table_requests_app, Hr1, Hr2; simpl;
    now rewrite <- !app_assoc.
Qed.

End RunFacts.

Section RunProperties.
Import Effects RunFacts.
Local Open Scope list_scope.

(** X5.  A run writes the artifact at most once.  When it writes, the template
    is present, the output is writable, the run ends normally, and the build
    version written is truthy: never [None] and never the empty string. *)
Theorem run_writes_at_most_once (w : world) :
  (length (written_versions (snd (run w))) <= 1)%nat /\
  (forall bv, In bv (written_versions (snd (run w))) ->
     py_truthy bv = true /\ template_present w = true /\
     output_writable w = true /\ fst (run w) = Ret tt).
Proof.
  rewrite run_unfold.
  destruct (parse_args (argv w) false false) as [force|e].
  2:{ cbn [snd]. destruct (argparse_text_quiet e) as (-> & _).
      split; [simpl; lia|intros bv []]. }
  destruct (should_regenerate_shape w force [])
    as (o1 & evs1 & H1 & _ & _ & Hw1 & _).
  cbn [app] in H1. rewrite H1.
  destruct o1 as [[[|] reason]|e]; cbn [snd fst].
  2:{ rewrite written_versions_app, Hw1. split; [simpl; lia|intros bv []]. }
  2:{ rewrite Hw1. split; [simpl; lia|intros bv []]. }
  cbn zeta.
  set (t1 := evs1 ++ [Print _]).
  assert (Hwt1 : written_versions t1 = []).
  { unfold t1. now rewrite written_versions_app, Hw1. }
  destruct (fetch_current_build_shape w t1) as (o2 & H2 & _). rewrite H2.
  destruct o2 as [fetched|e].
  2:{ cbn [snd]. rewrite written_versions_app, Hwt1.
      split; [simpl; lia|intros bv []]. }
  destruct (build_track_mapping_shape w (t1 ++ [GetBuilds]))
    as (mapping & evs3 & H3 & Hq3).
  rewrite H3. destruct (quiet_counts _ Hq3) as (_ & _ & Hw3).
  set (t4 := _ ++ (if PyDict.truthy mapping then [] else _)).
  assert (Hwt4 : written_versions t4 = []).
  { unfold t4. rewrite !written_versions_app, Hwt1, Hw3.
    now destruct (PyDict.truthy mapping). }
  destruct (template_present w); cbn [negb].
  2:{ cbn [snd]. rewrite written_versions_app, Hwt4.
      split; [simpl; lia|intros bv []]. }
  destruct (output_writable w); cbn [snd fst].
  2:{ rewrite Hwt4. split; [simpl; lia|intros bv []]. }
  rewrite written_versions_app, Hwt4. cbn.
  split; [lia|]. intros bv [<- | []].
  repeat split. unfold py_or. now destruct (py_truthy fetched) eqn:Hv.
Qed.

Lemma run_writes_at_most_once_witness :
  py_truthy (PStr "2.0") = true /\ template_present stale_world = true /\
  output_writable stale_world = true /\ fst (run stale_world) = Ret tt.
Proof.
  apply (proj2 (run_writes_at_most_once stale_world)).
  vm_compute. now left.
Defined.

(** X6.  A run that argparse ends does nothing but write argparse's text, the
    help text before code 0 and usage and error before code 2: it makes no
    request, reads no artifact and writes none.  A run that decides to skip
    ends normally without requesting a table or writing. *)
Theorem run_skip_is_inert (w : world) :
  (forall e, parse_args (argv w) false false = Raise e ->
     (e = SystemExit 0 /\ run w = (Raise e, [PrintHelp])) \/
     (e = SystemExit 2 /\ run w = (Raise e, [PrintUsage]))) /\
  (forall force reason t,
     parse_args (argv w) false false = Ret force ->
     should_regenerate w force [] = (Ret (false, reason), t) ->
     fst (run w) = Ret tt /\
     table_requests (snd (run w)) = [] /\
     written_versions (snd (run w)) = []).
Proof.
  split.
  - intros e Hp. rewrite run_unfold, Hp.
    destruct (parse_args_raises _ _ _ _ Hp) as [-> | ->];
      [left|right]; split; reflexivity.
  - intros force reason t Hp Hsr. rewrite run_unfold, Hp, Hsr. cbn [fst snd].
    pose proof (should_regenerate_no_tables w force []) as Htab.
    destruct (should_regenerate_shape w force [])
      as (o1 & evs1 & H1 & _ & _ & Hw1 & _).
    rewrite Hsr in Htab, H1. cbn [snd app table_requests] in Htab.
    injection H1 as _ <-.
    rewrite table_requests_app, written_versions_app, Htab, Hw1.
    repeat split.
Qed.

Lemma run_skip_is_inert_witness :
  fst (run fresh_world) = Ret tt /\
  table_requests (snd (run fresh_world)) = [] /\
  written_versions (snd (run fresh_world)) = [].
Proof.
  eapply (proj2 (run_skip_is_inert fresh_world)); reflexivity.
Defined.



(** X8.  An unforced run against an artifact whose first marker line, in the
    text as read_text returns it (CR and CRLF read as LF), carries the version
    that the builds endpoint reports skips regeneration: it reads the
    artifact, asks the builds endpoint once, prints that the artifact is up to
    date and stops, requesting no table and writing nothing.  The version is
    non-empty, trimmed and holds no LF and no CR. *)
Theorem fresh_run_skips (w : world) (v pre post : string) (r : response)
    (d entry : list (string * pyval)) (rest : list pyval) :
  parse_args (argv w) false false = Ret false ->
  v <> EmptyString -> contains_char newline v = false ->
  contains_char carriage_return v = false -> strip v = v ->
  ends_line (universal_newlines pre) -> starts_line (universal_newlines post) ->
  re_search_build (universal_newlines pre) = None ->
  output_file w = Present (pre ++ marker_line v ++ post)%string ->
  builds_api w 0 = Reply r ->
  error_status (status_code r) = false ->
  json_body r = Some (PDict d) ->
  assoc "wow" d = Some (PList (PDict entry :: rest)) ->
  assoc "version" entry = Some (PStr v) ->
  run w =
  (Ret tt,
   [ReadArtifact; GetBuilds;
    Print [Lit "Skipping generation: "; Lit "already up to date (build ";
           Fmt (PStr v); Lit ")"]]).
Proof.
  intros Hp Hne Hnl Hcr Hstrip Hpre Hpost Hnone Hfile Hapi Hst Hjson Hwow Hver.
  assert (Hex : get_existing_build w [] = (Ret (Some v), [ReadArtifact])).
  { unfold get_existing_build, output_exists, try_except, read_text, bind, emit.
    rewrite Hfile. cbn [negb ret].
    rewrite (StrFacts.universal_newlines_marker v pre post Hcr Hnl).
    rewrite (StrFacts.re_search_build_rendered v _ _ Hne Hnl Hpre Hpost Hnone).
    unfold ret. now rewrite Hstrip. }
  assert (Hf : fetch_current_build w [ReadArtifact] =
               (Ret (PStr v), [ReadArtifact; GetBuilds])).
  { rewrite (BuildsRequest.fetch_entry w [ReadArtifact] r d entry rest
               Hapi Hst Hjson Hwow), Hver. reflexivity. }
  assert (Htruthy : str_truthy v = true) by (now destruct v).
  assert (Hsr : should_regenerate w false [] =
                (Ret (false, [Lit "already up to date (build "; Fmt (PStr v); Lit ")"]),
                 [ReadArtifact; GetBuilds])).
  { unfold should_regenerate, output_exists. rewrite Hfile. cbn [negb].
    rewrite (bind_ret_eq _ _ _ _ _ Hex), Htruthy. cbn [negb].
    rewrite (bind_ret_eq _ _ _ _ _ Hf). cbn [py_truthy str_ne].
    now rewrite Htruthy, String.eqb_refl. }
  now rewrite run_unfold, Hp, Hsr.
Qed.

Lemma fresh_run_skips_witness :
  run fresh_world =
  (Ret tt,
   [ReadArtifact; GetBuilds;
    Print [Lit "Skipping generation: "; Lit "already up to date (build ";
           Fmt (PStr "2.0"); Lit ")"]]).
Proof.
  eapply (fresh_run_skips fresh_world "2.0" EmptyString "
local TrackData = {}"); try reflexivity.
  - discriminate.
  - now left.
  - right. now exists "local TrackData = {}".
Defined.

End RunProperties.

Section CheckProperties.
Import Effects RunFacts.
Local Open Scope list_scope.

(** X9.  should_regenerate reads the previous artifact only when regeneration
    is not forced and the artifact exists, and asks the builds endpoint only
    when, in addition, a non-empty marker was read from it; in each case it
    does so once. *)
Theorem should_regenerate_contacts
    (w : world) (force : bool) (t t1 : trace) (existing : option string) :
  get_existing_build w t = (Ret existing, t1) ->
  count_events is_ReadArtifact (snd (should_regenerate w force t)) =
    (count_events is_ReadArtifact t +
     (if negb force && output_exists w then 1 else 0))%nat /\
  count_events is_GetBuilds (snd (should_regenerate w force t)) =
    (count_events is_GetBuilds t +
     (if negb force && output_exists w && opt_str_truthy existing
      then 1 else 0))%nat.
Proof.
  intros Hex. unfold should_regenerate.
  destruct force; [cbn; lia|].
  assert (Ht1 : t1 = t ++ (if output_exists w then [ReadArtifact] else [])).
  { revert Hex.
    unfold get_existing_build, output_exists, try_except, read_text, bind, emit.
    destruct (output_file w) as [| | |content]; cbn [negb ret raise is_OSError].
    - intros [= _ <-]. now rewrite app_nil_r.
    - now intros [= _ <-].
    - discriminate.
    - destruct (re_search_build _); now intros [= _ <-]. }
  destruct (output_exists w); cbn [negb andb]; [|cbn; lia].
  rewrite (bind_ret_eq _ _ _ _ _ Hex). subst t1.
  destruct existing as [existing|]; cbn [opt_str_truthy];
    [|unfold ret; cbn [snd]; rewrite !count_events_app; cbn; lia].
  destruct (str_truthy existing); cbn [negb];
    [|unfold ret; cbn [snd]; rewrite !count_events_app; cbn; lia].
  destruct (fetch_current_build_shape w (t ++ [ReadArtifact])) as (o & Hf & _).
  destruct o as [current|e].
  - rewrite (bind_ret_eq _ _ _ _ _ Hf).
    destruct (py_truthy current); cbn [negb].
    + destruct (str_ne existing current); unfold ret; cbn [snd];
        rewrite !count_events_app; cbn; lia.
    + unfold bind, print, emit, ret. cbn [snd].
      rewrite !count_events_app. cbn. lia.
  - rewrite (bind_raise_eq _ _ _ _ _ Hf). cbn [snd].
    rewrite !count_events_app. cbn. lia.
Qed.

Lemma should_regenerate_contacts_witness :
  count_events is_ReadArtifact (snd (should_regenerate stale_world false [])) = 1%nat /\
  count_events is_GetBuilds (snd (should_regenerate stale_world false [])) = 1%nat.
Proof.
  exact (should_regenerate_contacts stale_world false [] [ReadArtifact]
           (Some "1.0") eq_refl).
Defined.

(** X10.  build_track_mapping never raises and requests both tables, once
    each and in the same order, whatever the replies: the second table is
    requested even after the first request has failed.  It does not ask the
    builds endpoint, read the artifact or write. *)
Theorem build_track_mapping_fetches_both (w : world) (t : trace) :
  exists mapping evs,
    build_track_mapping w t = (Ret mapping, t ++ evs) /\
    table_requests evs =
      ["ItemBonusSeasonBonusListGroup"; "ItemBonusListGroupEntry"] /\
    count_events is_GetBuilds evs = 0%nat /\
    count_events is_ReadArtifact evs = 0%nat /\
    written_versions evs = [].
Proof.
  pose proof (build_track_mapping_requests w t) as Hreq.
  destruct (build_track_mapping_shape w t) as (mapping & evs & Heq & Hq).
  rewrite Heq in Hreq. cbn [snd] in Hreq.
  rewrite table_requests_app in Hreq. apply app_inv_head in Hreq.
  destruct (quiet_counts _ Hq) as (Hg & Hr & Hw).
  exists mapping, evs. repeat split; assumption.
Qed.

End CheckProperties.

(** ** Unique keys *)

Module DictInv.
Import DictFacts.
Local Open Scope list_scope.

Section Inv.
Context {K V : Type} `{EqDecision K}.
Implicit Types (d : PyDict.dict K V) (k : K) (v : V).

Lemma get_None_keys d k : PyDict.get k d = None <-> ~ In k (PyDict.keys d).
Proof.
  unfold PyDict.keys. induction d as [|[k' v'] d IH]; simpl; [tauto|].
  destruct (decide (k' = k)) as [->|Hne].
  - split; [discriminate|]. intros Hn. exfalso. apply Hn. now left.
  - rewrite IH. tauto.
Qed.

(** Writing a key leaves the keys as they are or adds the key at the end. *)
Lemma keys_set d k v :
  PyDict.keys (PyDict.set k v d) = PyDict.keys d \/
  (~ In k (PyDict.keys d) /\ PyDict.keys (PyDict.set k v d) = PyDict.keys d ++ [k]).
Proof.
  unfold PyDict.keys. induction d as [|[k' v'] d IH]; simpl.
  - right. split; [tauto|reflexivity].
  - destruct (decide (k' = k)) as [->|Hne]; simpl; [now left|].
    destruct IH as [IH | [Hnotin IH]]; rewrite IH; [now left|].
    right. split; [|reflexivity]. intros [Heq | Hin]; [contradiction|tauto].
Qed.

Lemma wf_set d k v : PyDict.wf d -> PyDict.wf (PyDict.set k v d).
Proof.
  unfold PyDict.wf. intros Hwf.
  destruct (keys_set d k v) as [-> | [Hnotin ->]]; [assumption|].
  apply NoDup_app. split; [assumption|]. split.
  - intros x Hx Hk. apply list_elem_of_In in Hx, Hk.
    destruct Hk as [<- | []]. contradiction.
  - apply NoDup_singleton.
Qed.

Lemma wf_fold_set {A} (f : A -> K) (g : A -> V) (l : list A) d :
  PyDict.wf d ->
  PyDict.wf (fold_left (fun acc x => PyDict.set (f x) (g x) acc) l d).
Proof.
  revert d. induction l as [|x l IH]; intros d Hwf; simpl; [assumption|].
  apply IH. now apply wf_set.
Qed.

Lemma wf_empty : PyDict.wf (PyDict.empty (K := K) (V := V)).
Proof. unfold PyDict.wf. simpl. apply NoDup_nil_2. Qed.

End Inv.

Lemma wf_build_group_to_track (rows : list Row) :
  PyDict.wf (build_group_to_track rows).
Proof.
  unfold build_group_to_track.
  assert (Hgen : forall d, PyDict.wf d -> PyDict.wf (fold_left track_step rows d)).
  { induction rows as [|r rows IH]; intros d Hwf; simpl; [assumption|].
    apply IH.
    destruct (Tracks.track_step_cases d r) as [-> | (g & t & _ & ->)];
      [assumption|now apply wf_set]. }
  apply Hgen, wf_empty.
Qed.

Lemma wf_join_step gb acc item :
  PyDict.wf acc -> PyDict.wf (join_step gb acc item).
Proof.
  intros Hwf. destruct item as [g t]. unfold join_step.
  destruct (PyDict.get t TRACK_NAMES); [|assumption].
  destruct (negb (str_truthy s)); [assumption|].
  now apply (wf_fold_set (fun b => b) (fun _ => s)).
Qed.

Lemma wf_join_tracks gt gb : PyDict.wf (join_tracks gt gb).
Proof.
  unfold join_tracks.
  assert (Hgen : forall acc, PyDict.wf acc ->
            PyDict.wf (fold_left (join_step gb) gt acc)).
  { induction gt as [|item gt' IH]; intros acc Hwf; simpl; [assumption|].
    apply IH. now apply wf_join_step. }
  apply Hgen, wf_empty.
Qed.

End DictInv.

(** ** The group-to-bonuses table *)

Module Bonuses.
Import DictFacts.
Local Open Scope list_scope.

(** The group-to-bonuses loop on one row, by what the row enters. *)
Lemma bonus_step_entry d row :
  bonus_step d row =
  match bonus_entry row with
  | Some (gid, bid) =>
      let d1 := if negb (PyDict.mem gid d) then PyDict.set gid [] d else d in
      PyDict.set gid (default [] (PyDict.get gid d1) ++ [bid]) d1
  | None => d
  end.
Proof.
  unfold bonus_step, bonus_entry.
  destruct (str_truthy (row_get "ItemBonusListGroupID" row)
            && str_truthy (row_get "ItemBonusListID" row)); [|reflexivity].
  destruct (py_int (row_get "ItemBonusListGroupID" row)); [|reflexivity].
  now destruct (py_int (row_get "ItemBonusListID" row)).
Qed.

Lemma get_bonus_step d row g :
  PyDict.get g (bonus_step d row) =
  match bonus_for g row with
  | Some bid => Some (bonuses_of d g ++ [bid])
  | None => PyDict.get g d
  end.
Proof.
  rewrite bonus_step_entry. unfold bonus_for, bonuses_of.
  destruct (bonus_entry row) as [[gid bid]|]; [|reflexivity].
  cbn zeta. destruct (decide (gid = g)) as [->|Hne].
  - rewrite get_set_eq. unfold PyDict.mem.
    destruct (PyDict.get g d) as [l|] eqn:Hg; cbn [negb].
    + now rewrite Hg.
    + now rewrite get_set_eq.
  - rewrite get_set_ne by assumption. unfold PyDict.mem.
    destruct (PyDict.get gid d); cbn [negb]; [reflexivity|].
    now rewrite get_set_ne.
Qed.

Lemma bonuses_of_step d row g :
  bonuses_of (bonus_step d row) g =
  bonuses_of d g ++ match bonus_for g row with Some bid => [bid] | None => [] end.
Proof.
  unfold bonuses_of at 1. rewrite get_bonus_step.
  destruct (bonus_for g row); [reflexivity|].
  now rewrite app_nil_r.
Qed.

Lemma get_fold_bonus_step (rows : list Row) d g :
  PyDict.get g (fold_left bonus_step rows d) =
  match bonuses_entered g rows with
  | [] => PyDict.get g d
  | l => Some (bonuses_of d g ++ l)
  end.
Proof.
  revert d. induction rows as [|row rows IH]; intros d; simpl; [reflexivity|].
  rewrite IH, bonuses_of_step, get_bonus_step.
  destruct (bonus_for g row) as [bid|].
  - destruct (bonuses_entered g rows) as [|b l]; [reflexivity|].
    now rewrite <- app_assoc.
  - now rewrite app_nil_r.
Qed.

Lemma bonuses_entered_in g rows b :
  In b (bonuses_entered g rows) ->
  exists row, In row rows /\ bonus_entry row = Some (g, b).
Proof.
  induction rows as [|row rows IH]; simpl; [easy|].
  unfold bonus_for at 1.
  destruct (bonus_entry row) as [[gid bid]|] eqn:He.
  - destruct (decide (gid = g)) as [->|Hne].
    + intros [<- | Hin].
      * exists row. split; [now left|assumption].
      * destruct (IH Hin) as (r & Hr & Hb). exists r. split; [now right|assumption].
    + intros Hin. destruct (IH Hin) as (r & Hr & Hb). exists r. split; [now right|assumption].
  - intros Hin. destruct (IH Hin) as (r & Hr & Hb). exists r. split; [now right|assumption].
Qed.

End Bonuses.

(** X11.  The group-to-bonuses table holds, for each group, exactly the bonus
    IDs of the rows whose group-id and bonus-id fields are non-empty and
    numeric, in the order of the rows and with repetitions kept; a group with
    no such row has no entry, so no group is bound to an empty list. *)
Theorem group_to_bonuses_collects (rows : list Row) (g : Z) :
  PyDict.get g (build_group_to_bonuses rows) =
    match bonuses_entered g rows with
    | [] => None
    | l => Some l
    end /\
  bonuses_of (build_group_to_bonuses rows) g = bonuses_entered g rows.
Proof.
  unfold bonuses_of, build_group_to_bonuses.
  rewrite Bonuses.get_fold_bonus_step.
  destruct (bonuses_entered g rows); split; reflexivity.
Qed.

(** X12.  The two tables that build_track_mapping joins, and the mapping it
    derives, have no key twice, and every track number of the group-to-track
    table is in 1..6: the tables built from any rows meet what the join
    relies on. *)
Theorem built_tables_well_formed (track_rows entry_rows : list Row) :
  PyDict.wf (build_group_to_track track_rows) /\
  (forall g t, PyDict.get g (build_group_to_track track_rows) = Some t ->
               1 <= t <= 6) /\
  PyDict.wf (build_group_to_bonuses entry_rows) /\
  PyDict.wf (join_tracks (build_group_to_track track_rows)
                         (build_group_to_bonuses entry_rows)).
Proof.
  split; [apply DictInv.wf_build_group_to_track|].
  split.
  - intros g t Hget. unfold build_group_to_track in Hget.
    destruct (Tracks.get_fold_track_sound _ _ _ _ Hget)
      as [Hempty | (row & _ & Hvalid)]; [discriminate|]. apply Hvalid.
  - split; [|apply DictInv.wf_join_tracks].
    unfold build_group_to_bonuses.
    assert (Hgen : forall d, PyDict.wf d ->
              PyDict.wf (fold_left bonus_step entry_rows d)).
    { induction entry_rows as [|r rows IH]; intros d Hwf; simpl; [assumption|].
      apply IH. rewrite Bonuses.bonus_step_entry.
      destruct (bonus_entry r) as [[gid bid]|]; [|assumption].
      cbn zeta. apply DictInv.wf_set.
      destruct (negb (PyDict.mem gid d)); [now apply DictInv.wf_set|assumption]. }
    apply Hgen, DictInv.wf_empty.
Qed.

Lemma built_tables_well_formed_witness :
  PyDict.wf (build_group_to_track duplicate_group_rows) /\ 1 <= 2 <= 6.
Proof.
  destruct (built_tables_well_formed duplicate_group_rows []) as (Hwf & Hvalid & _).
  split; [exact Hwf|]. apply (Hvalid 10 2). reflexivity.
Defined.

(** X13.  Every entry of the mapping derived from two row lists goes back to
    the rows: a bonus ID is mapped to a name only if some entry row enters it
    for a group and some valid track row gives that group the track of that
    name. *)
Theorem mapping_entries_come_from_rows
    (track_rows entry_rows : list Row) (b : Z) (n : string) :
  PyDict.get b (join_tracks (build_group_to_track track_rows)
                            (build_group_to_bonuses entry_rows)) = Some n ->
  exists track_row entry_row gid tnum,
    In track_row track_rows /\ valid_track_row track_row gid tnum /\
    In entry_row entry_rows /\ bonus_entry entry_row = Some (gid, b) /\
    n = canonical_name tnum.
Proof.
  intros Hget. unfold join_tracks in Hget.
  destruct (Join.get_join_fold_sound _ _ _ _ _ Hget)
    as [Hempty | (g & t & Hin & Hb & Hn)]; [discriminate|].
  apply (DictFacts.In_get _ _ _ (DictInv.wf_build_group_to_track track_rows)) in Hin.
  unfold build_group_to_track in Hin.
  destruct (Tracks.get_fold_track_sound _ _ _ _ Hin)
    as [Hempty | (track_row & Htr & Hvalid)]; [discriminate|].
  unfold bonuses_of, build_group_to_bonuses in Hb.
  rewrite Bonuses.get_fold_bonus_step in Hb.
  assert (Hb' : In b (bonuses_entered g entry_rows)).
  { destruct (bonuses_entered g entry_rows); [destruct Hb|exact Hb]. }
  destruct (Bonuses.bonuses_entered_in _ _ _ Hb') as (entry_row & Her & Hentry).
  exists track_row, entry_row, g, t.
  repeat split; try assumption; try apply Hvalid.
  now destruct (Join.track_name_inv _ _ Hn) as (_ & -> & _).
Qed.

Lemma mapping_entries_come_from_rows_witness :
  exists track_row entry_row gid tnum,
    In track_row duplicate_group_rows /\ valid_track_row track_row gid tnum /\
    In entry_row [[("ItemBonusListGroupID", "10"); ("ItemBonusListID", "100")]] /\
    bonus_entry entry_row = Some (gid, 100) /\
    "adventurer" = canonical_name tnum.
Proof.
  apply (mapping_entries_come_from_rows duplicate_group_rows
           [[("ItemBonusListGroupID", "10"); ("ItemBonusListID", "100")]]
           100 "adventurer").
  reflexivity.
Defined.

(** ** The sorted mapping *)

Module Sorting.
Import DictFacts DictInv.
Local Open Scope list_scope.

Lemma insert_sorted_perm x l : Permutation (insert_sorted x l) (x :: l).
Proof.
  induction l as [|y l IH]; simpl; [reflexivity|].
  destruct (fst x <=? fst y); [reflexivity|].
  rewrite IH. apply perm_swap.
Qed.

Lemma sorted_items_perm d : Permutation (sorted_items d) d.
Proof.
  unfold sorted_items. induction d as [|x d IH]; simpl; [reflexivity|].
  rewrite insert_sorted_perm. now constructor.
Qed.

Lemma wf_sorted_items d : PyDict.wf d -> PyDict.wf (sorted_items d).
Proof.
  unfold PyDict.wf, PyDict.keys. intros Hwf.
  now rewrite (Permutation_map fst (sorted_items_perm d)).
Qed.

(** The head of an ascending dictionary is below every later key. *)
Lemma ascending_head k v d :
  keys_ascending ((k, v) :: d) -> forall k', In k' (PyDict.keys d) -> k < k'.
Proof.
  revert k v. induction d as [|[k1 v1] d IH]; intros k v; simpl; [easy|].
  intros [Hlt Hasc] k' [<- | Hin]; [assumption|].
  specialize (IH k1 v1 Hasc k' Hin). lia.
Qed.

Lemma insert_sorted_ascending x l :
  keys_ascending l -> ~ In (fst x) (PyDict.keys l) ->
  keys_ascending (insert_sorted x l).
Proof.
  destruct x as [k v]. induction l as [|[k1 v1] l IH]; simpl; [tauto|].
  intros Hasc Hnotin. cbn [fst] in *.
  destruct (k <=? k1) eqn:Hle.
  - apply Z.leb_le in Hle. simpl. split; [|assumption].
    assert (k <> k1) by (intros ->; apply Hnotin; now left). lia.
  - apply Z.leb_gt in Hle. destruct Hasc as [Hhead Hasc].
    assert (Hnotin' : ~ In k (PyDict.keys l)) by (intros Hin; apply Hnotin; now right).
    specialize (IH Hasc Hnotin').
    change (keys_ascending ((k1, v1) :: insert_sorted (k, v) l)).
    cbn [keys_ascending]. split; [|assumption].
    destruct l as [|[k2 v2] l]; simpl; [assumption|].
    destruct (k <=? k2); assumption.
Qed.

Lemma sorted_items_ascending d : PyDict.wf d -> keys_ascending (sorted_items d).
Proof.
  unfold sorted_items. induction d as [|x d IH]; intros Hwf; [exact I|].
  unfold PyDict.wf, PyDict.keys in Hwf. simpl in Hwf.
  apply NoDup_cons in Hwf as [Hnotin Hwf].
  simpl. apply insert_sorted_ascending; [now apply IH|].
  intros Hin. apply Hnotin, list_elem_of_In.
  unfold PyDict.keys in Hin.
  now rewrite (Permutation_map fst (sorted_items_perm d)) in Hin.
Qed.

(** Two dictionaries with the same entries answer lookups alike. *)
Lemma get_perm (d1 d2 : PyDict.dict Z string) k :
  PyDict.wf d1 -> Permutation d1 d2 -> PyDict.get k d1 = PyDict.get k d2.
Proof.
  intros Hwf1 Hperm.
  assert (Hwf2 : PyDict.wf d2).
  { unfold PyDict.wf, PyDict.keys in *.
    now rewrite <- (Permutation_map fst Hperm). }
  destruct (PyDict.get k d1) as [v|] eqn:H1.
  - symmetry. apply In_get; [assumption|].
    apply get_In in H1. now rewrite <- Hperm.
  - symmetry. apply get_None_keys. apply get_None_keys in H1.
    unfold PyDict.keys in *.
    now rewrite <- (Permutation_map fst Hperm).
Qed.

(** Ascending dictionaries that answer lookups alike are the same list. *)
Lemma ascending_ext (l1 l2 : PyDict.dict Z string) :
  keys_ascending l1 -> keys_ascending l2 ->
  (forall k, PyDict.get k l1 = PyDict.get k l2) -> l1 = l2.
Proof.
  revert l2. induction l1 as [|[k1 v1] l1 IH]; intros [|[k2 v2] l2] H1 H2 Hget.
  - reflexivity.
  - specialize (Hget k2). simpl in Hget. now rewrite decide_True in Hget.
  - specialize (Hget k1). simpl in Hget. now rewrite decide_True in Hget.
  - pose proof (ascending_head _ _ _ H1) as Hlow1.
    pose proof (ascending_head _ _ _ H2) as Hlow2.
    assert (Hk : k1 = k2).
    { destruct (Z.lt_trichotomy k1 k2) as [Hlt | [Heq | Hgt]]; [|assumption|].
      - pose proof (Hget k1) as H. simpl in H.
        rewrite decide_True in H by reflexivity.
        rewrite decide_False in H by lia.
        symmetry in H. apply get_In in H.
        assert (Hin : In k1 (PyDict.keys l2))
          by (change k1 with (fst (k1, v1)); now apply in_map).
        specialize (Hlow2 _ Hin). lia.
      - pose proof (Hget k2) as H. simpl in H.
        rewrite (decide_True (P := k2 = k2)) in H by reflexivity.
        rewrite decide_False in H by lia.
        apply get_In in H.
        assert (Hin : In k2 (PyDict.keys l1))
          by (change k2 with (fst (k2, v2)); now apply in_map).
        specialize (Hlow1 _ Hin). lia. }
    subst k2.
    assert (Hv : v1 = v2).
    { specialize (Hget k1). simpl in Hget.
      rewrite !decide_True in Hget by reflexivity. congruence. }
    subst v2. f_equal.
    apply IH; [apply H1|apply H2|].
    intros k. destruct (decide (k1 = k)) as [<-|Hne].
    + transitivity (@None string); [|symmetry]; apply get_None_keys;
        intros Hin; [specialize (Hlow1 _ Hin)|specialize (Hlow2 _ Hin)]; lia.
    + specialize (Hget k). simpl in Hget.
      now rewrite !decide_False in Hget by assumption.
Qed.

End Sorting.

(** X14.  The mapping handed to the template is the derived mapping sorted by
    bonus ID: its keys ascend strictly, it has the same number of entries, and
    every lookup gives what the unsorted mapping gives. *)
Theorem sorted_items_sorted (d : PyDict.dict Z string) :
  PyDict.wf d ->
  keys_ascending (sorted_items d) /\
  length (sorted_items d) = length d /\
  (forall k, PyDict.get k (sorted_items d) = PyDict.get k d).
Proof.
  intros Hwf. split; [now apply Sorting.sorted_items_ascending|]. split.
  - apply Permutation_length, Sorting.sorted_items_perm.
  - intros k. apply Sorting.get_perm.
    + now apply Sorting.wf_sorted_items.
    + apply Sorting.sorted_items_perm.
Qed.

Lemma sorted_items_sorted_witness :
  keys_ascending (sorted_items [(200, "myth"); (100, "adventurer")]) /\
  length (sorted_items [(200, "myth"); (100, "adventurer")]) = 2%nat /\
  (forall k, PyDict.get k (sorted_items [(200, "myth"); (100, "adventurer")])
             = PyDict.get k [(200, "myth"); (100, "adventurer")]).
Proof.
  apply (sorted_items_sorted [(200, "myth"); (100, "adventurer")]).
  unfold PyDict.wf. simpl.
  constructor; [rewrite list_elem_of_In; simpl; intuition lia|].
  constructor; [rewrite list_elem_of_In; simpl; tauto|constructor].
Defined.

(** X15.  The sorted mapping does not depend on the order in which the entries
    were derived: two mappings with the same entries are written as the same
    list. *)
Theorem sorted_items_canonical (d1 d2 : PyDict.dict Z string) :
  PyDict.wf d1 -> PyDict.wf d2 ->
  (forall k, PyDict.get k d1 = PyDict.get k d2) ->
  sorted_items d1 = sorted_items d2.
Proof.
  intros Hwf1 Hwf2 Hget.
  apply Sorting.ascending_ext;
    [now apply Sorting.sorted_items_ascending
    |now apply Sorting.sorted_items_ascending|].
  intros k.
  rewrite (Sorting.get_perm (sorted_items d1) d1 k
             (Sorting.wf_sorted_items d1 Hwf1) (Sorting.sorted_items_perm d1)).
  rewrite (Sorting.get_perm (sorted_items d2) d2 k
             (Sorting.wf_sorted_items d2 Hwf2) (Sorting.sorted_items_perm d2)).
  apply Hget.
Qed.

Lemma sorted_items_canonical_witness :
  sorted_items [(200, "myth"); (100, "adventurer")] =
  sorted_items [(100, "adventurer"); (200, "myth")].
Proof.
  apply sorted_items_canonical.
  - unfold PyDict.wf. simpl.
    constructor; [rewrite list_elem_of_In; simpl; intuition lia|].
    constructor; [rewrite list_elem_of_In; simpl; tauto|constructor].
  - unfold PyDict.wf. simpl.
    constructor; [rewrite list_elem_of_In; simpl; intuition lia|].
    constructor; [rewrite list_elem_of_In; simpl; tauto|constructor].
  - intros k. simpl.
    destruct (decide (200 = k)) as [<-|H200]; [reflexivity|].
    destruct (decide (100 = k)); reflexivity.
Defined.

(** ** More on rows *)

Module RowFacts.
Import DictFacts DictInv.
Local Open Scope list_scope.

(** In a fold of writes the last write of a key decides. *)
Lemma get_fold_pairs_last (p1 p2 : list (string * string)) (k x : string) (acc : Row) :
  ~ In k (map fst p2) ->
  PyDict.get k (fold_left (fun row hv => PyDict.set (fst hv) (snd hv) row)
                          (p1 ++ (k, x) :: p2) acc) = Some x.
Proof.
  intros Hnotin. rewrite fold_left_app. simpl.
  assert (Hgen : forall (p : list (string * string)) (d : Row),
    ~ In k (map fst p) -> PyDict.get k d = Some x ->
    PyDict.get k (fold_left (fun row hv => PyDict.set (fst hv) (snd hv) row) p d)
    = Some x).
  { induction p as [|[h v] p IH]; intros d Hp Hd; simpl; [assumption|].
    apply IH.
    - intros Hin. apply Hp. now right.
    - rewrite get_set_ne; [assumption|]. cbn [fst].
      intros ->. apply Hp. now left. }
  apply Hgen; [assumption|apply get_set_eq].
Qed.

Lemma wf_zip_row headers values : PyDict.wf (zip_row headers values).
Proof. unfold zip_row. apply wf_fold_set, wf_empty. Qed.

End RowFacts.

(** X16.  A header whose position has a value binds its trimmed name to that
    trimmed value, unless a later header that also has a value carries the
    same trimmed name: of two columns with one name the later wins. *)
Theorem build_row_binds (headers values : list string) (i : nat) (h v : string) :
  headers !! i = Some h ->
  values !! i = Some v ->
  (forall j h', (i < j)%nat -> (j < length values)%nat ->
                headers !! j = Some h' -> strip h' <> strip h) ->
  PyDict.get (strip h) (build_row headers values) = Some (strip v).
Proof.
  intros Hh Hv Hlater. rewrite Csv.build_row_zip. unfold zip_row.
  set (pairs := combine (map strip headers) (map strip values)).
  assert (Hi : pairs !! i = Some (strip h, strip v)).
  { unfold pairs.
    change (combine (map strip headers) (map strip values))
      with (zip (strip <$> headers) (strip <$> values)).
    apply lookup_zip_with_Some. exists (strip h), (strip v).
    rewrite !list_lookup_fmap, Hh, Hv. repeat split. }
  rewrite <- (take_drop_middle _ _ _ Hi).
  apply RowFacts.get_fold_pairs_last.
  intros Hin. apply in_map_iff in Hin as ([a b] & Ha & Hin). cbn [fst] in Ha. subst a.
  apply list_elem_of_In, list_elem_of_lookup in Hin as [j Hj].
  rewrite lookup_drop in Hj.
  unfold pairs in Hj.
  change (combine (map strip headers) (map strip values))
    with (zip (strip <$> headers) (strip <$> values)) in Hj.
  apply lookup_zip_with_Some in Hj as (a' & b' & Heq & Ha' & Hb').
  injection Heq as <- <-.
  rewrite list_lookup_fmap in Ha', Hb'.
  destruct (headers !! (S i + j)%nat) as [h'|] eqn:Hh'; [|discriminate].
  destruct (values !! (S i + j)%nat) as [v'|] eqn:Hv'; [|discriminate].
  injection Ha' as Ha'.
  apply lookup_lt_Some in Hv'.
  apply (Hlater (S i + j)%nat h'); [lia|assumption|assumption|assumption].
Qed.

Lemma build_row_binds_witness :
  PyDict.get "a" (build_row ["a"; " b"; "a "] ["1"; "2"; "3"; "4"]) = Some "3".
Proof.
  apply (build_row_binds ["a"; " b"; "a "] ["1"; "2"; "3"; "4"] 2 "a " "3").
  - reflexivity.
  - reflexivity.
  - intros j h' Hij Hj Hh'.
    destruct j as [|[|[|j]]]; try lia; discriminate.
Defined.

(** X17.  parse_table returns one row for each line after the first that is
    not blank, and none for a body of a single line.  In every row no name
    occurs twice, and names and values carry no whitespace at either end. *)
Theorem parse_table_rows (body : string) :
  length (parse_table body) = length (data_lines body) /\
  (forall row, In row (parse_table body) ->
     PyDict.wf row /\
     forall k x, PyDict.get k row = Some x -> trimmed k /\ trimmed x).
Proof.
  unfold parse_table, data_lines.
  destruct (split newline (strip body)) as [|first rest] eqn:Hlines.
  { split; [reflexivity|intros row []]. }
  destruct rest as [|line rest].
  { split; [reflexivity|intros row []]. }
  change (length (first :: line :: rest) <? 2)%nat with false. cbn match.
  rewrite Csv.fold_rows_step. cbn [app tail].
  split; [now rewrite length_map|].
  intros row Hin. apply in_map_iff in Hin as (l & <- & _).
  split; [apply RowFacts.wf_zip_row|].
  intros k x Hget.
  destruct (Csv.zip_row_lookup _ _ _ _ Hget) as (i & h & v & _ & _ & -> & ->).
  split; apply Trim.strip_idem.
Qed.

Lemma parse_table_rows_witness :
  PyDict.wf [("a", "1"); ("b", "2")] /\
  forall k x, PyDict.get k [("a", "1"); ("b", "2")] = Some x ->
              trimmed k /\ trimmed x.
Proof.
  apply (proj2 (parse_table_rows "a, b ,c
1,2

3,4,5,6
")). vm_compute. now left.
Defined.

(** ** More on the join and on what a run writes *)

(** X18.  A bonus ID listed only by groups that have no entry in the
    group-to-track table is absent from the derived mapping. *)
Theorem join_skips_untracked_groups
    (group_to_track : PyDict.dict Z Z) (group_to_bonuses : PyDict.dict Z (list Z))
    (b : Z) :
  (forall g, In b (bonuses_of group_to_bonuses g) ->
             PyDict.get g group_to_track = None) ->
  PyDict.get b (join_tracks group_to_track group_to_bonuses) = None.
Proof.
  intros Huntracked.
  destruct (PyDict.get b (join_tracks group_to_track group_to_bonuses))
    as [n|] eqn:Hget; [|reflexivity].
  unfold join_tracks in Hget.
  destruct (Join.get_join_fold_sound _ _ _ _ _ Hget)
    as [Hempty | (g & t & Hin & Hb & _)]; [discriminate|].
  specialize (Huntracked g Hb).
  apply DictInv.get_None_keys in Huntracked. exfalso. apply Huntracked.
  change g with (fst (g, t)). now apply in_map.
Qed.

Lemma join_skips_untracked_groups_witness :
  PyDict.get 300 (join_tracks [(10, 2)] [(10, [100]); (30, [300])]) = None.
Proof.
  apply join_skips_untracked_groups.
  intros g. unfold bonuses_of. simpl.
  destruct (decide (10 = g)) as [<-|H10]; simpl; [intuition lia|].
  destruct (decide (30 = g)) as [<-|H30]; simpl; [reflexivity|tauto].
Defined.

Section WriteProperties.
Import Effects RunFacts.
Local Open Scope list_scope.

(** X19.  A run that writes has passed argparse and was told by
    should_regenerate to regenerate; what it writes is the mapping that
    build_track_mapping returned in this run, sorted, together with the value
    of the builds request that main made just before, or "unknown" in its
    place.  The run's trace is the trace of these three calls in this order,
    then the warning when the mapping is empty, the write and two printed
    lines; nothing is written before. *)
Theorem run_writes_sorted_mapping (w : world)
    (ids : list (Z * string)) (bv : pyval) :
  In (WriteArtifact ids bv) (snd (run w)) ->
  exists force reason t0 t1 fetched mapping t3,
    parse_args (argv w) false false = Ret force /\
    should_regenerate w force [] = (Ret (true, reason), t0) /\
    t1 = t0 ++ [Print ([Lit "Generating track data from wago.tools ("]
                         ++ reason ++ [Lit ")..."])] /\
    fetch_current_build w t1 = (Ret fetched, t1 ++ [GetBuilds]) /\
    build_track_mapping w (t1 ++ [GetBuilds]) = (Ret mapping, t3) /\
    ids = sorted_items mapping /\
    bv = py_or fetched (PStr "unknown") /\
    written_versions t3 = [] /\
    run w =
      (Ret tt,
       t3 ++
       (if PyDict.truthy mapping then []
        else [Print [Lit "Warning: No bonus ID mappings found, generating empty file"]]) ++
       [WriteArtifact ids bv;
        Print [Lit "Generated "; FmtPath "TrackData.lua"; Lit " (build ";
               Fmt bv; Lit ")"];
        Print [Lit "Done!"]]).
Proof.
  assert (Hnone : forall t, written_versions t = [] ->
            ~ In (WriteArtifact ids bv) t).
  { intros t Hw Hin. apply in_split in Hin as (l1 & l2 & ->).
    rewrite written_versions_app in Hw. simpl in Hw.
    now destruct (written_versions l1). }
  rewrite run_unfold.
  destruct (parse_args (argv w) false false) as [force|e] eqn:Hp.
  2:{ cbn [snd]. intros Hin. exfalso.
      apply (Hnone [argparse_text e]); [|exact Hin].
      apply (argparse_text_quiet e). }
  destruct (should_regenerate_shape w force [])
    as (o1 & evs1 & H1 & _ & _ & Hw1 & _).
  cbn [app] in H1. rewrite H1.
  destruct o1 as [[[|] reason]|e]; cbn [snd].
  2:{ intros Hin. exfalso. apply (Hnone (evs1 ++ [Print (Lit "Skipping generation: " :: reason)])); [|exact Hin].
      now rewrite written_versions_app, Hw1. }
  2:{ intros Hin. now apply Hnone in Hin. }
  cbn zeta.
  set (t1 := evs1 ++ [Print _]).
  assert (Hwt1 : written_versions t1 = []).
  { unfold t1. now rewrite written_versions_app, Hw1. }
  destruct (fetch_current_build_shape w t1) as (o2 & H2 & _). rewrite H2.
  destruct o2 as [fetched|e].
  2:{ cbn [snd]. intros Hin. exfalso. apply (Hnone (t1 ++ [GetBuilds])); [|exact Hin].
      now rewrite written_versions_app, Hwt1. }
  destruct (build_track_mapping_shape w (t1 ++ [GetBuilds]))
    as (mapping & evs3 & H3 & Hq3).
  rewrite H3. destruct (quiet_counts _ Hq3) as (_ & _ & Hw3).
  assert (Hwt3 : written_versions ((t1 ++ [GetBuilds]) ++ evs3) = []).
  { now rewrite !written_versions_app, Hwt1, Hw3. }
  set (t4 := _ ++ (if PyDict.truthy mapping then [] else _)).
  assert (Hwt4 : written_versions t4 = []).
  { unfold t4. rewrite written_versions_app, Hwt3.
    now destruct (PyDict.truthy mapping). }
  destruct (template_present w); cbn [negb].
  2:{ cbn [snd]. intros Hin. exfalso.
      apply (Hnone (t4 ++ [Print [Lit "Error: Template not found at ";
                                  FmtPath "TrackData.template"]])); [|exact Hin].
      now rewrite written_versions_app, Hwt4. }
  destruct (output_writable w); cbn [snd].
  2:{ intros Hin. now apply Hnone in Hin. }
  intros Hin. apply in_app_or in Hin as [Hin | Hin];
    [now apply Hnone in Hin|].
  destruct Hin as [[= <- <-] | [[=] | [[=] | []]]].
  exists force, reason, evs1, t1, fetched, mapping, ((t1 ++ [GetBuilds]) ++ evs3).
  splits; try assumption; try reflexivity.
  unfold t4. now rewrite <- app_assoc.
Qed.

Lemma run_writes_sorted_mapping_witness :
  exists force reason t0 t1 fetched mapping t3,
    parse_args (argv forced_world) false false = Ret force /\
    should_regenerate forced_world force [] = (Ret (true, reason), t0) /\
    t1 = t0 ++ [Print ([Lit "Generating track data from wago.tools ("]
                         ++ reason ++ [Lit ")..."])] /\
    fetch_current_build forced_world t1 = (Ret fetched, t1 ++ [GetBuilds]) /\
    build_track_mapping forced_world (t1 ++ [GetBuilds]) = (Ret mapping, t3) /\
    [(100, "adventurer"); (101, "adventurer"); (200, "myth")]
      = sorted_items mapping /\
    PStr "2.0" = py_or fetched (PStr "unknown") /\
    written_versions t3 = [] /\
    run forced_world =
      (Ret tt,
       t3 ++
       (if PyDict.truthy mapping then []
        else [Print [Lit "Warning: No bonus ID mappings found, generating empty file"]]) ++
       [WriteArtifact [(100, "adventurer"); (101, "adventurer"); (200, "myth")]
          (PStr "2.0");
        Print [Lit "Generated "; FmtPath "TrackData.lua"; Lit " (build ";
               Fmt (PStr "2.0"); Lit ")"];
        Print [Lit "Done!"]]).
Proof.
  apply (run_writes_sorted_mapping forced_world).
  vm_compute. do 9 right. now left.
Defined.



End WriteProperties.

(** ** Padding around the version *)

Module Padding.

Lemma lstrip_app_space ws s : all_space ws = true -> lstrip (ws ++ s) = lstrip s.
Proof.
  induction ws as [|c ws IH]; simpl; [reflexivity|].
  intros H. apply andb_true_iff in H as [Hc Hws]. rewrite Hc. now apply IH.
Qed.

Lemma rstrip_all_space ws : all_space ws = true -> rstrip ws = EmptyString.
Proof.
  induction ws as [|c ws IH]; simpl; [reflexivity|].
  intros H. apply andb_true_iff in H as [Hc Hws]. now rewrite (IH Hws), Hc.
Qed.

Lemma rstrip_app_space s ws : all_space ws = true -> rstrip (s ++ ws) = rstrip s.
Proof.
  intros Hws. induction s as [|c s IH]; simpl; [now apply rstrip_all_space|].
  now rewrite IH.
Qed.

Lemma length_lstrip s : (String.length (lstrip s) <= String.length s)%nat.
Proof.
  induction s as [|c s IH]; simpl; [lia|].
  destruct (py_isspace c); simpl; lia.
Qed.

Lemma length_rstrip s : (String.length (rstrip s) <= String.length s)%nat.
Proof.
  induction s as [|c s IH]; simpl; [lia|].
  destruct (py_isspace c && is_empty (rstrip s)); simpl; lia.
Qed.

(** A trimmed string is left alone by both halves of [strip]. *)
Lemma trimmed_halves v : trimmed v -> lstrip v = v /\ rstrip v = v.
Proof.
  unfold trimmed, strip. intros Hv.
  assert (Hl : lstrip v = v).
  { destruct v as [|c v]; [reflexivity|].
    simpl in *. destruct (py_isspace c); [|reflexivity].
    exfalso. pose proof (length_rstrip (lstrip v)) as H1.
    pose proof (length_lstrip v) as H2.
    rewrite Hv in H1. simpl in H1. lia. }
  split; [assumption|]. now rewrite Hl in Hv.
Qed.

Lemma strip_padded ws1 v ws2 :
  all_space ws1 = true -> all_space ws2 = true -> trimmed v ->
  strip (ws1 ++ v ++ ws2) = v.
Proof.
  intros H1 H2 Hv. destruct (trimmed_halves v Hv) as [Hl Hr].
  unfold strip. rewrite (lstrip_app_space ws1 _ H1).
  destruct v as [|c v].
  - simpl. rewrite <- (StrFacts.app_empty_r ws2) at 1.
    rewrite (lstrip_app_space ws2 EmptyString H2). reflexivity.
  - assert (Hc : py_isspace c = false).
    { simpl in Hl. destruct (py_isspace c) eqn:Hc; [|reflexivity].
      exfalso. pose proof (length_lstrip v) as H. rewrite Hl in H. simpl in H. lia. }
    change (String c v ++ ws2) with (String c (v ++ ws2)).
    cbn [lstrip]. rewrite Hc.
    change (String c (v ++ ws2)) with (String c v ++ ws2).
    now rewrite (rstrip_app_space _ ws2 H2).
Qed.

End Padding.

(** X21.  Blanks around the version on the marker line are dropped, and the
    line may end in LF, CRLF or CR alike: from an artifact whose first marker
    line, in the text as read_text returns it, is [-- Build: ], padding, a
    trimmed non-empty version and more padding, get_existing_build returns the
    version alone.  Padding and version hold no LF and no CR, which would end
    the line. *)
Theorem get_existing_build_ignores_padding
    (w : world) (t : trace) (v ws1 ws2 pre post : string) :
  v <> EmptyString -> trimmed v ->
  all_space ws1 = true -> all_space ws2 = true ->
  contains_char newline (ws1 ++ v ++ ws2) = false ->
  contains_char carriage_return (ws1 ++ v ++ ws2) = false ->
  ends_line (universal_newlines pre) -> starts_line (universal_newlines post) ->
  re_search_build (universal_newlines pre) = None ->
  output_file w = Present (pre ++ (marker_prefix ++ ws1 ++ v ++ ws2) ++ post) ->
  get_existing_build w t = (Ret (Some v), (t ++ [ReadArtifact])%list).
Proof.
  intros Hne Hv H1 H2 Hnl Hcr Hpre Hpost Hnone Hfile.
  unfold get_existing_build, output_exists, try_except, read_text, bind, emit.
  rewrite Hfile. cbn [negb ret].
  assert (Hrest : ws1 ++ v ++ ws2 <> EmptyString).
  { destruct ws1; [|discriminate]. destruct v; [contradiction|discriminate]. }
  change (marker_prefix ++ ws1 ++ v ++ ws2) with (marker_line (ws1 ++ v ++ ws2)).
  rewrite (StrFacts.universal_newlines_marker _ pre post Hcr Hnl).
  rewrite (StrFacts.re_search_build_rendered _ _ _ Hrest Hnl Hpre Hpost Hnone).
  unfold ret. now rewrite Padding.strip_padded.
Qed.

Lemma get_existing_build_ignores_padding_witness :
  get_existing_build
    (artifact_world ("-- Build:   1.2.3.45678 " ++
                     String carriage_return (String newline "local TrackData = {}")))
    [] = (Ret (Some "1.2.3.45678"), [ReadArtifact]).
Proof.
  apply (get_existing_build_ignores_padding _ [] "1.2.3.45678" "  " " " EmptyString
           (String carriage_return (String newline "local TrackData = {}")));
    try reflexivity.
  - discriminate.
  - now left.
  - right. now exists "local TrackData = {}".
Defined.
